(** * Result generation orchestration of ram-backend

    A shallow embedding of [app/routes/scenarios--gen-results.js]: the two
    route handlers ([POST] and [DELETE] on
    [/projects/{projId}/scenarios/{scId}/generate]), [generateResults],
    the three stage runners and [killAnalysisProcess].

    Conventions of the embedding.
    - Asynchronous code is a computation over an explicit [State]; an
      [await] is a bind.  A promise has three fates: fulfilled, rejected,
      or never settled; the last one is kept apart because the source can
      produce it.
    - Everything the module does to the outside (child processes, service
      runners, file removal, kill calls) is appended to [trace].  Console
      output is not recorded.
    - What the outside answers (exit codes, completion signals, the host's
      [Date.parse]) is read from an [Env] record, so theorems quantify over
      every behaviour of the collaborators.
    - Identifiers are integers and are printed in decimal inside template
      strings. *)

From Stdlib Require Import ZArith List Permutation Lia Ascii.
From stdpp Require Import base strings gmap list pretty.

Local Open Scope Z_scope.
Local Open Scope string_scope.
Local Open Scope list_scope.

(** ** JavaScript values and errors *)

(** Column values as the database driver hands them over. *)
Inductive jsval :=
| JUndefined
| JNull
| JNum (n : Z)
| JStr (s : string).

Inductive errClass :=
| ErrorC
| TypeErrorC
| DataConflictErrorC
| ScenarioNotFoundErrorC
| ProjectNotFoundErrorC
| NotFoundErrorC
| AlreadyRunningErrorC.

Record jsError := mkError { errClassOf : errClass; message : string }.

Definition Error (msg : string) : jsError := mkError ErrorC msg.
Definition TypeError (msg : string) : jsError := mkError TypeErrorC msg.
Definition DataConflictError (msg : string) : jsError := mkError DataConflictErrorC msg.

Definition jsval_eqb (a b : jsval) : bool :=
  match a, b with
  | JUndefined, JUndefined => true
  | JNull, JNull => true
  | JNum x, JNum y => Z.eqb x y
  | JStr x, JStr y => String.eqb x y
  | _, _ => false
  end.

(** [s.match(/re/)] for a regular expression that is a plain word: true
    when [re] occurs somewhere in [s]. *)
Fixpoint includes (re s : string) : bool :=
  String.prefix re s ||
  match s with
  | EmptyString => false
  | String _ s' => includes re s'
  end.

(** ** Configuration ([../config]) *)

Record AnalysisProcessConfig := {
  service : string;
  container : string;
  ap_db : string;
  storageHost : string;
  storagePort : string;
  hyperAccess : string;
  hyperSecret : string;
  hyperSize : option string
}.

Record StorageConfig := {
  engine : string;
  accessKey : string;
  secretKey : string;
  bucket : string;
  region : string
}.

Record Config := {
  instanceId : string;
  analysisProcess : AnalysisProcessConfig;
  storage : StorageConfig
}.

(** ** Behaviour of the collaborators *)

(** Fate of a promise owned by a collaborator. *)
Inductive settle :=
| Fulfils
| RejectsWith (e : jsError)
| NeverSettles.

(** The [complete] signal of a service runner, with its optional error. *)
Inductive signal :=
| NoSignal
| Complete (err : option jsError).

(** A child process: the chunks it writes on stderr and the code passed to
    its [close] listener ([None]: the process never closes). *)
Record procBehaviour := {
  stderrChunks : list string;
  exitCode : option Z
}.

Record Env := {
  config : Config;
  DS_ENV : option string;
  dateParse : string -> option Z;
  loadFault : option string;
  scenarioNotFoundMessage : string;
  projectNotFoundMessage : string;
  removeFileResult : string -> settle;
  closeDatabaseResult : settle;
  exportRoadNetworkSignal : signal;
  vectorTilesResult : settle;
  pullImageProc : procBehaviour;
  analysisProc : procBehaviour
}.

Definition testMode (env : Env) : bool :=
  match DS_ENV env with
  | Some v => String.eqb v "test"
  | None => false
  end.

(** ** Persistent store and process registry *)

Inductive opStatus :=
| NotStarted
| Running
| Completed
| Errored.

Definition opStatus_eqb (a b : opStatus) : bool :=
  match a, b with
  | NotStarted, NotStarted | Running, Running
  | Completed, Completed | Errored, Errored => true
  | _, _ => false
  end.

(** Payload of [{error: error.message || error}]: the message when it is a
    non-empty string, the error object itself otherwise. *)
Inductive errPayload :=
| PText (s : string)
| PErrorObject (e : jsError).

Inductive logData :=
| DMessage (s : string)
| DError (p : errPayload).

Record OperationRow := {
  or_id : Z;
  or_name : string;
  or_project_id : Z;
  or_scenario_id : Z;
  or_status : opStatus;
  or_log : list (string * logData)
}.

Record ProjectRow := { pr_id : Z; pr_status : string }.
Record ScenarioRow := { sc_id : Z; sc_project_id : Z }.
Record SettingRow := { st_scenario_id : Z; st_key : string; st_value : jsval }.
Record FileRow := {
  fl_id : Z;
  fl_project_id : Z;
  fl_scenario_id : Z;
  fl_type : string;
  fl_path : string
}.
Record ResultRow := { rs_project_id : Z; rs_scenario_id : Z }.

Record Db := {
  operations : list OperationRow;
  projects : list ProjectRow;
  scenarios : list ScenarioRow;
  scenarios_settings : list SettingRow;
  scenarios_files : list FileRow;
  results : list ResultRow
}.

(** A stage handle: a [ServiceRunner] instance or the object returned by
    [createRoadNetworkVT]. *)
Inductive Handle :=
| HService (name : string) (projId scId : Z) (opId : option Z)
| HVectorTiles (projId scId : Z) (path : string).

(** A property of a registry entry: never assigned, [null], or a handle. *)
Inductive slot :=
| SlotUndefined
| SlotNull
| SlotHandle (h : Handle).

Record Entry := { updateRN_slot : slot; genVT_slot : slot }.

Definition emptyEntry : Entry :=
  {| updateRN_slot := SlotUndefined; genVT_slot := SlotUndefined |}.

Inductive Event :=
| EvRemoveFile (path : string)
| EvGenerateResults (projId scId : Z)
| EvCloseDatabase (projId scId : Z)
| EvServiceStart (h : Handle)
| EvCreateRoadNetworkVT (h : Handle)
| EvKill (h : Handle)
| EvSpawn (cmd : string) (args : list string) (env : list (string * string))
| EvExec (cmdline : string) (env : list (string * string))
| EvUnhandledRejection (e : jsError).

(** The in-memory [Operation] instance. *)
Record Operation := { op_id : option Z; op_status : opStatus }.

(** [runningProcesses] is the module-level registry; [thisOp] is the
    [Operation] instance of the running handler or job ([opCheck], [op]);
    [trace] lists the outside effects, oldest first. *)
Record State := {
  db : Db;
  runningProcesses : gmap string Entry;
  thisOp : Operation;
  trace : list Event
}.

Definition set_db (f : Db -> Db) (s : State) : State :=
  {| db := f (db s); runningProcesses := runningProcesses s;
     thisOp := thisOp s; trace := trace s |}.
Definition set_runningProcesses (f : gmap string Entry -> gmap string Entry)
    (s : State) : State :=
  {| db := db s; runningProcesses := f (runningProcesses s);
     thisOp := thisOp s; trace := trace s |}.
Definition set_thisOp (o : Operation) (s : State) : State :=
  {| db := db s; runningProcesses := runningProcesses s;
     thisOp := o; trace := trace s |}.
Definition add_event (e : Event) (s : State) : State :=
  {| db := db s; runningProcesses := runningProcesses s;
     thisOp := thisOp s; trace := trace s ++ [e] |}.

Definition set_operations (f : list OperationRow -> list OperationRow) (d : Db) : Db :=
  {| operations := f (operations d); projects := projects d;
     scenarios := scenarios d; scenarios_settings := scenarios_settings d;
     scenarios_files := scenarios_files d; results := results d |}.
Definition set_scenarios_files (f : list FileRow -> list FileRow) (d : Db) : Db :=
  {| operations := operations d; projects := projects d;
     scenarios := scenarios d; scenarios_settings := scenarios_settings d;
     scenarios_files := f (scenarios_files d); results := results d |}.
Definition set_results (f : list ResultRow -> list ResultRow) (d : Db) : Db :=
  {| operations := operations d; projects := projects d;
     scenarios := scenarios d; scenarios_settings := scenarios_settings d;
     scenarios_files := scenarios_files d; results := f (results d) |}.

(** ** Promises as state-passing computations *)

Inductive outcome (A : Type) :=
| Fulfilled (a : A) (s : State)
| Rejected (e : jsError) (s : State)
| Pending (s : State).
Arguments Fulfilled {A} a s.
Arguments Rejected {A} e s.
Arguments Pending {A} s.

Definition M (A : Type) : Type := State -> outcome A.

Definition finalState {A} (o : outcome A) : State :=
  match o with
  | Fulfilled _ s | Rejected _ s | Pending s => s
  end.

#[global] Instance M_ret : MRet M := λ A a s, Fulfilled a s.
#[global] Instance M_bind : MBind M := λ A B f m s,
  match m s with
  | Fulfilled a s' => f a s'
  | Rejected e s' => Rejected e s'
  | Pending s' => Pending s'
  end.

Definition throw {A} (e : jsError) : M A := λ s, Rejected e s.
Definition hang {A} : M A := λ s, Pending s.
Definition getState : M State := λ s, Fulfilled s s.
Definition modify (f : State -> State) : M unit := λ s, Fulfilled tt (f s).
Definition emit (e : Event) : M unit := modify (add_event e).

(** [try { m } catch (err) { h err }] *)
Definition try_catch {A} (m : M A) (h : jsError -> M A) : M A := λ s,
  match m s with
  | Rejected e s' => h e s'
  | o => o
  end.

(** Awaiting a promise of a collaborator. *)
Definition await (r : settle) : M unit :=
  match r with
  | Fulfils => mret tt
  | RejectsWith e => throw e
  | NeverSettles => hang
  end.

(** A call whose promise is dropped: the caller goes on whatever becomes
    of it, and the state is the one the call leaves behind. *)
Definition detach {A} (m : M A) : M unit := λ s,
  Fulfilled tt (finalState (m s)).

(** ** The Operation Log ([../utils/operation]) *)

(** Modelled from the spec: the identity (type, projectId, scenarioId) of
    an operation record; the [Operation] class is not among the sources. *)
Definition sameIdentity (name : string) (projId scId : Z) (r : OperationRow) : bool :=
  String.eqb (or_name r) name && Z.eqb (or_project_id r) projId
  && Z.eqb (or_scenario_id r) scId.

(** Modelled from the spec: the terminal statuses, completed and error. *)
Definition isTerminal (st : opStatus) : bool :=
  match st with
  | Completed | Errored => true
  | _ => false
  end.

(** Modelled from the spec: the record [loadByData] picks when several
    exist, the most recent one.  Rows are kept in insertion order, so it is
    the last one that matches. *)
Definition latestOperation (rows : list OperationRow) (name : string)
    (projId scId : Z) : option OperationRow :=
  last (filter (λ r, sameIdentity name projId scId r = true) rows).

(** Modelled from the spec: the opaque id given to a new record. *)
Definition nextId (rows : list OperationRow) : Z :=
  1 + fold_right Z.max 0 (map or_id rows).

(** Modelled from the spec: the names of the four statuses. *)
Definition statusName (st : opStatus) : string :=
  match st with
  | NotStarted => "not-started"
  | Running => "running"
  | Completed => "completed"
  | Errored => "error"
  end.

(** Modelled from the spec: appending a log entry to the record [id]. *)
Definition appendLog (id : option Z) (entry : string * logData)
    (r : OperationRow) : OperationRow :=
  if bool_decide (Some (or_id r) = id) then
    {| or_id := or_id r; or_name := or_name r; or_project_id := or_project_id r;
       or_scenario_id := or_scenario_id r; or_status := or_status r;
       or_log := or_log r ++ [entry] |}
  else r.

(** Modelled from the spec: setting the status of the record [id]. *)
Definition setStatus (id : option Z) (st : opStatus) (r : OperationRow) : OperationRow :=
  if bool_decide (Some (or_id r) = id) then
    {| or_id := or_id r; or_name := or_name r; or_project_id := or_project_id r;
       or_scenario_id := or_scenario_id r; or_status := st;
       or_log := or_log r |}
  else r.

(** Modelled from the spec: [new Operation(db)]; the class is not among the
    sources.  A fresh instance is in state not-started and has no id. *)
Definition newOperation : M unit :=
  modify (set_thisOp {| op_id := None; op_status := NotStarted |}).

(** Modelled from the spec: [Operation.loadByData], absent from the sources.
    It fails with a not-found error when the identity has no record and
    loads the most recent record otherwise.  The wording of the not-found
    message is the one the handlers test with [/not exist/].  [loadFault]
    makes the load fail for any other reason, with that message. *)
Definition Operation_loadByData (env : Env) (name : string) (projId scId : Z) : M unit :=
  match loadFault env with
  | Some msg => throw (Error msg)
  | None =>
      s ← getState;
      match latestOperation (operations (db s)) name projId scId with
      | None => throw (mkError NotFoundErrorC "Operation does not exist")
      | Some r => modify (set_thisOp {| op_id := Some (or_id r); op_status := or_status r |})
      end
  end.

(** Modelled from the spec: [Operation.start], absent from the sources.  It
    fails when an unfinished operation of the identity exists and otherwise
    persists a new record in state running. *)
Definition Operation_start (name : string) (projId scId : Z) : M unit :=
  s ← getState;
  let rows := operations (db s) in
  if existsb (λ r, sameIdentity name projId scId r && negb (isTerminal (or_status r))) rows
  then throw (mkError AlreadyRunningErrorC "Operation already running")
  else
    let id := nextId rows in
    modify (set_db (set_operations (λ rows, rows ++
      [{| or_id := id; or_name := name; or_project_id := projId;
          or_scenario_id := scId; or_status := Running; or_log := [] |}])));;
    modify (set_thisOp {| op_id := Some id; op_status := Running |}).

(** Modelled from the spec: [Operation.log], absent from the sources: it
    appends an entry to the record of this instance. *)
Definition Operation_log (event : string) (data : logData) : M unit :=
  s ← getState;
  modify (set_db (set_operations (map (appendLog (op_id (thisOp s)) (event, data))))).

(** Modelled from the spec: [Operation.finish], absent from the sources: it
    sets the terminal status and a closing log entry, and does not check
    whether the operation was finished before. *)
Definition Operation_finish (st : opStatus) (data : logData) : M unit :=
  s ← getState;
  let id := op_id (thisOp s) in
  modify (set_db (set_operations
    (map (λ r, setStatus id st (appendLog id (statusName st, data) r)))));;
  modify (set_thisOp {| op_id := id; op_status := st |}).

(** Modelled from the spec: [Operation.isStarted], true when the status of
    the instance is running. *)
Definition Operation_isStarted : M bool :=
  s ← getState; mret (opStatus_eqb (op_status (thisOp s)) Running).

(** Modelled from the spec: [Operation.isCompleted], true for the statuses
    completed and error. *)
Definition Operation_isCompleted : M bool :=
  s ← getState; mret (isTerminal (op_status (thisOp s))).

(** Modelled from the spec: [Operation.getId], the opaque operation id. *)
Definition Operation_getId : M (option Z) :=
  s ← getState; mret (op_id (thisOp s)).

(** ** Collaborators called by the module *)

(** Modelled from the spec: [getProject] of [./projects--get], absent from
    the sources: the project record, or a not-found error. *)
Definition getProject (env : Env) (projId : Z) : M ProjectRow :=
  s ← getState;
  match find (λ p, Z.eqb (pr_id p) projId) (projects (db s)) with
  | Some p => mret p
  | None => throw (mkError ProjectNotFoundErrorC (projectNotFoundMessage env))
  end.

(** [closeDatabase] of [../services/rra-osm-p2p]. *)
Definition closeDatabase (env : Env) (projId scId : Z) : M unit :=
  emit (EvCloseDatabase projId scId);;
  await (closeDatabaseResult env).

(** [Promise.all]: rejects with the first rejection, stays pending when a
    member never settles and none rejects, and is fulfilled otherwise. *)
Definition promiseAll (rs : list settle) : settle :=
  match find (λ r, match r with RejectsWith _ => true | _ => false end) rs with
  | Some r => r
  | None =>
      if existsb (λ r, match r with NeverSettles => true | _ => false end) rs
      then NeverSettles else Fulfils
  end.

(** ** Template strings *)

Definition prettyId (opId : option Z) : string :=
  match opId with
  | Some n => pretty n
  | None => "null"
  end.

(** [`p${projId} s${scId}`] *)
Definition jobKey (projId scId : Z) : string :=
  "p" +:+ pretty projId +:+ " s" +:+ pretty scId.

(** [`${config.instanceId}-analysisp${projId}s${scId}`] *)
Definition containerName (cfg : Config) (projId scId : Z) : string :=
  instanceId cfg +:+ "-analysisp" +:+ pretty projId +:+ "s" +:+ pretty scId.

Definition invalidServiceMessage (service : string) : string :=
  service +:+ " is not a valid option. The analysis should be run on 'docker' or 'hyper'. Check your config file or env variables.".

Definition hyperEnv (cfg : Config) : list (string * string) :=
  [("HYPER_ACCESS", hyperAccess (analysisProcess cfg));
   ("HYPER_SECRET", hyperSecret (analysisProcess cfg))].

(** ** The process registry *)

Inductive slotName := UpdateRN | GenVT.

Definition getSlot (n : slotName) (e : Entry) : slot :=
  match n with
  | UpdateRN => updateRN_slot e
  | GenVT => genVT_slot e
  end.

Definition setSlot (n : slotName) (v : slot) (e : Entry) : Entry :=
  match n with
  | UpdateRN => {| updateRN_slot := v; genVT_slot := genVT_slot e |}
  | GenVT => {| updateRN_slot := updateRN_slot e; genVT_slot := v |}
  end.

Definition undefinedProperty (n : slotName) : jsError :=
  TypeError ("Cannot read property '" +:+
             match n with UpdateRN => "updateRN" | GenVT => "genVT" end
             +:+ "' of undefined").

(** [runningProcesses[identifier].slot] *)
Definition readSlot (identifier : string) (n : slotName) : M slot :=
  s ← getState;
  match runningProcesses s !! identifier with
  | None => throw (undefinedProperty n)
  | Some e => mret (getSlot n e)
  end.

(** [runningProcesses[identifier].slot = v] *)
Definition writeSlot (identifier : string) (n : slotName) (v : slot) : M unit :=
  s ← getState;
  match runningProcesses s !! identifier with
  | None => throw (undefinedProperty n)
  | Some e => modify (set_runningProcesses (insert identifier (setSlot n v e)))
  end.

(** ** Stage runners *)

(** [updateRN]: the service is registered, started, and the stage settles
    on the [complete] signal. *)
Definition updateRN (env : Env) (projId scId : Z) (opId : option Z) : M unit :=
  let identifier := jobKey projId scId in
  let service := HService "export-road-network" projId scId opId in
  writeSlot identifier UpdateRN (SlotHandle service);;
  emit (EvServiceStart service);;
  match exportRoadNetworkSignal env with
  | NoSignal => hang
  | Complete err =>
      writeSlot identifier UpdateRN SlotNull;;
      match err with
      | Some e => throw e
      | None => mret tt
      end
  end.

(** The road network file looked up by [generateTiles]. *)
Definition roadNetworkFile (d : Db) (scId : Z) : option FileRow :=
  find (λ f, Z.eqb (fl_scenario_id f) scId && String.eqb (fl_type f) "road-network")
       (scenarios_files d).

(** [generateTiles] *)
Definition generateTiles (env : Env) (projId scId : Z) : M unit :=
  let identifier := jobKey projId scId in
  s ← getState;
  let rnFile := roadNetworkFile (db s) scId in
  match rnFile with
  | None => throw (TypeError "Cannot read property 'path' of undefined")
  | Some f =>
      let service := HVectorTiles projId scId (fl_path f) in
      emit (EvCreateRoadNetworkVT service);;
      writeSlot identifier GenVT (SlotHandle service);;
      await (vectorTilesResult env);;
      writeSlot identifier GenVT SlotNull
  end.

(** The last chunk seen by the [stderr] listener; [new Error(undefined)]
    has the empty message. *)
Definition capturedStderr (p : procBehaviour) : string :=
  match last (stderrChunks p) with
  | Some e => e
  | None => ""
  end.

(** [pullImage]: the exit code is only logged. *)
Definition pullImage (env : Env) : M unit :=
  let cfg := config env in
  let cmd := service (analysisProcess cfg) in
  let args := ["pull"; container (analysisProcess cfg)] in
  emit (EvSpawn cmd args (hyperEnv cfg));;
  match exitCode (pullImageProc env) with
  | Some _ => mret tt
  | None => hang
  end.

(** The argument list built before the [switch] in [runProcess]. *)
Definition baseArgs (cfg : Config) (projId scId : Z) (opId : option Z) : list string :=
  [ "run";
    "--name"; containerName cfg projId scId;
    "--rm";
    "-e"; "DB_URI=" +:+ ap_db (analysisProcess cfg);
    "-e"; "PROJECT_ID=" +:+ pretty projId;
    "-e"; "SCENARIO_ID=" +:+ pretty scId;
    "-e"; "OPERATION_ID=" +:+ prettyId opId;
    "-e"; "STORAGE_HOST=" +:+ storageHost (analysisProcess cfg);
    "-e"; "STORAGE_PORT=" +:+ storagePort (analysisProcess cfg);
    "-e"; "STORAGE_ENGINE=" +:+ engine (storage cfg);
    "-e"; "STORAGE_ACCESS_KEY=" +:+ accessKey (storage cfg);
    "-e"; "STORAGE_SECRET_KEY=" +:+ secretKey (storage cfg);
    "-e"; "STORAGE_BUCKET=" +:+ bucket (storage cfg);
    "-e"; "STORAGE_REGION=" +:+ region (storage cfg);
    "-e"; "CONVERSION_DIR=/conversion" ].

(** The [switch (service)] of [runProcess]: the arguments and environment
    of a supported backend, or [None] in the [default] case. *)
Definition serviceArgs (cfg : Config) (args : list string)
    : option (list string * list (string * string)) :=
  let service := service (analysisProcess cfg) in
  if String.eqb service "docker" then
    Some (args ++ ["--network"; "ram"], [])
  else if String.eqb service "hyper" then
    Some (match hyperSize (analysisProcess cfg) with
          | Some sz => if String.eqb sz "" then args else args ++ ["--size=" +:+ sz]
          | None => args
          end, hyperEnv cfg)
  else None.

(** [runProcess].  In the [default] case the executor returns a rejected
    promise of its own and calls neither [resolve] nor [reject]: the
    promise of [runProcess] never settles. *)
Definition runProcess (env : Env) (projId scId : Z) (opId : option Z) : M unit :=
  let cfg := config env in
  let service := service (analysisProcess cfg) in
  match serviceArgs cfg (baseArgs cfg projId scId opId) with
  | None =>
      emit (EvUnhandledRejection (Error (invalidServiceMessage service)));;
      hang
  | Some (args, penv) =>
      let args := args ++ [container (analysisProcess cfg)] in
      emit (EvSpawn service args penv);;
      match exitCode (analysisProc env) with
      | None => hang
      | Some code =>
          let identifier := jobKey projId scId in
          modify (set_runningProcesses (delete identifier));;
          if negb (Z.eqb code 0)
          then throw (Error (capturedStderr (analysisProc env)))
          else mret tt
      end
  end.

(** [spawnAnalysisProcess] *)
Definition spawnAnalysisProcess (env : Env) (projId scId : Z) (opId : option Z) : M unit :=
  pullImage env;;
  runProcess env projId scId opId.

(** [killAnalysisProcess].  The body is a promise executor, so an
    exception thrown in it rejects the promise. *)
Definition killAnalysisProcess (env : Env) (projId scId : Z) : M unit :=
  if testMode env then mret tt else
  let identifier := jobKey projId scId in
  u ← readSlot identifier UpdateRN;
  match u with
  | SlotHandle h =>
      emit (EvKill h);;
      writeSlot identifier UpdateRN SlotNull
  | _ =>
      g ← readSlot identifier GenVT;
      match g with
      | SlotHandle h =>
          emit (EvKill h);;
          writeSlot identifier GenVT SlotNull
      | _ =>
          let cfg := config env in
          let service := service (analysisProcess cfg) in
          let containerName := containerName cfg projId scId in
          let cmdline := service +:+ " rm -f " +:+ containerName in
          if String.eqb service "hyper" then emit (EvExec cmdline (hyperEnv cfg))
          else if String.eqb service "docker" then emit (EvExec cmdline [])
          else throw (Error (invalidServiceMessage service))
      end
  end.

(** ** The orchestrator *)

(** [(new Date(v)).getTime()]; [None] is [NaN].  A number is clipped to
    the range of time values, a string goes through the host's parser. *)
Definition dateGetTime (env : Env) (v : jsval) : option Z :=
  match v with
  | JUndefined => None
  | JNull => Some 0
  | JNum n => if (Z.abs n <=? 8640000000000000)%Z then Some n else None
  | JStr s => dateParse env s
  end.

(** [v === 0 ? v : (new Date(v)).getTime()] *)
Definition timeValue (env : Env) (v : jsval) : option Z :=
  if jsval_eqb v (JNum 0) then Some 0 else dateGetTime env v.

(** [a > b] on numbers; a comparison with [NaN] is false. *)
Definition numGt (a b : option Z) : bool :=
  match a, b with
  | Some x, Some y => (y <? x)%Z
  | _, _ => false
  end.

(** Lines 181 to 192 of the source: the value of [needExport]. *)
Definition decideNeedExport (env : Env) (genAt activeEditing rnUpdatedAt : jsval) : bool :=
  if jsval_eqb activeEditing (JStr "true") then
    numGt (timeValue env rnUpdatedAt) (timeValue env genAt)
  else false.

(** [ORDER BY key] *)
Fixpoint insertByKey (r : SettingRow) (l : list SettingRow) : list SettingRow :=
  match l with
  | [] => [r]
  | x :: l' =>
      if String.leb (st_key r) (st_key x) then r :: l else x :: insertByKey r l'
  end.

Definition orderByKey (l : list SettingRow) : list SettingRow :=
  fold_right insertByKey [] l.

Definition exportKeys : list string := ["res_gen_at"; "rn_active_editing"; "rn_updated_at"].

Definition isExportSetting (scId : Z) (r : SettingRow) : bool :=
  Z.eqb (st_scenario_id r) scId && existsb (String.eqb (st_key r)) exportKeys.

(** The settings query of [generateResults] and the destructuring of its
    result: the first three values in key order, [undefined] where the
    result is shorter. *)
Definition readExportSettings (d : Db) (scId : Z) : jsval * jsval * jsval :=
  let values := map st_value
    (orderByKey (List.filter (isExportSetting scId) (scenarios_settings d))) in
  (nth 0 values JUndefined, nth 1 values JUndefined, nth 2 values JUndefined).

Definition needExportOf (env : Env) (d : Db) (scId : Z) : bool :=
  let '(genAt, activeEditing, rnUpdatedAt) := readExportSettings d scId in
  decideNeedExport env genAt activeEditing rnUpdatedAt.

(** [setImmediatePromise]: the callback runs in a later turn and its fate
    becomes the fate of the returned promise. *)
Definition setImmediatePromise {A} (cb : M A) : M A := cb.

(** [error.message || error] *)
Definition errorPayload (error : jsError) : errPayload :=
  if String.eqb (message error) "" then PErrorObject error else PText (message error).

(** The callback given to [setImmediatePromise] in [generateResults]. *)
Definition runStages (env : Env) (projId scId : Z) (opId : option Z)
    (needExport : bool) : M unit :=
  (if needExport then
     closeDatabase env projId scId;;
     updateRN env projId scId opId;;
     generateTiles env projId scId
   else mret tt);;
  spawnAnalysisProcess env projId scId opId.

(** [if (!runningProcesses[identifier]) runningProcesses[identifier] = {}] *)
Definition ensureEntry (identifier : string) (rp : gmap string Entry) : gmap string Entry :=
  match rp !! identifier with
  | None => <[identifier := emptyEntry]> rp
  | Some _ => rp
  end.

(** The [catch] block of [generateResults]; [identifier] is only logged. *)
Definition finishOnError (identifier : string) (error : jsError) : M unit :=
  completed ← Operation_isCompleted;
  if negb completed
  then Operation_finish Errored (DError (errorPayload error))
  else mret tt.

(** [generateResults] *)
Definition generateResults (env : Env) (projId scId : Z) : M unit :=
  if testMode env then mret tt else
  let identifier := jobKey projId scId in
  newOperation;;
  try_catch
    (Operation_start "generate-analysis" projId scId;;
     Operation_log "start" (DMessage "Analysis generation started");;
     opId ← Operation_getId;
     modify (set_runningProcesses (ensureEntry identifier));;
     s ← getState;
     let needExport := needExportOf env (db s) scId in
     setImmediatePromise (runStages env projId scId opId needExport))
    (finishOnError identifier).

(** ** Route handlers *)

(** What is handed to [reply]: the success body, or the error given to
    [getBoomResponseForError]. *)
Inductive Reply :=
| ReplyOk (statusCode : Z) (msg : string)
| ReplyError (error : jsError).

Definition resultTypes : list string := ["results-csv"; "results-json"; "results-geojson"].

Definition isResultFile (projId scId : Z) (f : FileRow) : bool :=
  Z.eqb (fl_scenario_id f) scId && Z.eqb (fl_project_id f) projId
  && existsb (String.eqb (fl_type f)) resultTypes.

(** Lines 74 to 91: the stored results are removed.  Every task of the
    [Promise.all] is started before the handler waits for them. *)
Definition deleteResults (env : Env) (projId scId : Z) : M unit :=
  s ← getState;
  let files := List.filter (isResultFile projId scId) (scenarios_files (db s)) in
  let ids := map fl_id files in
  modify (λ s, fold_left (λ (s : State) (f : FileRow), add_event (EvRemoveFile (fl_path f)) s) files s);;
  modify (set_db (set_scenarios_files
    (List.filter (λ f, negb (existsb (Z.eqb (fl_id f)) ids)))));;
  modify (set_db (set_results
    (List.filter (λ r, negb (Z.eqb (rs_project_id r) projId
                               && Z.eqb (rs_scenario_id r) scId)))));;
  await (promiseAll (map (λ f, removeFileResult env (fl_path f)) files)).

(** The admin areas query of the [POST] handler, with [.first()]. *)
Definition findAdminAreas (d : Db) (scId : Z) : option SettingRow :=
  find (λ r, String.eqb (st_key r) "admin_areas" && Z.eqb (st_scenario_id r) scId)
       (scenarios_settings d).

(** The [POST] handler. *)
Definition postGenerate (env : Env) (projId scId : Z) : M Reply :=
  try_catch
    (newOperation;;
     try_catch
       (Operation_loadByData env "generate-analysis" projId scId)
       (λ err, if negb (includes "not exist" (message err)) then throw err else mret tt);;
     started ← Operation_isStarted;
     if (started : bool) then throw (DataConflictError "Result generation already running") else
     project ← getProject env projId;
     if negb (String.eqb (pr_status project) "active")
     then throw (DataConflictError "Project setup not completed") else
     s ← getState;
     let scenario := find (λ sc, Z.eqb (sc_id sc) scId && Z.eqb (sc_project_id sc) projId)
                          (scenarios (db s)) in
     match scenario with
     | None => throw (mkError ScenarioNotFoundErrorC (scenarioNotFoundMessage env))
     | Some _ =>
         let aaSetting := findAdminAreas (db s) scId in
         match aaSetting with
         | None => throw (TypeError "Cannot read property 'value' of undefined")
         | Some row =>
             if jsval_eqb (st_value row) (JStr "[]")
             then throw (DataConflictError "No admin areas selected") else
             deleteResults env projId scId;;
             emit (EvGenerateResults projId scId);;
             detach (generateResults env projId scId);;
             mret (ReplyOk 200 "Result generation started")
         end
     end)
    (λ error, mret (ReplyError error)).

(** The [DELETE] handler. *)
Definition deleteGenerate (env : Env) (projId scId : Z) : M Reply :=
  try_catch
    (newOperation;;
     try_catch
       (Operation_loadByData env "generate-analysis" projId scId)
       (λ err, if includes "not exist" (message err)
               then throw (DataConflictError "Result generation not running")
               else mret tt);;
     started ← Operation_isStarted;
     if negb (started : bool) then throw (DataConflictError "Result generation not running") else
     killAnalysisProcess env projId scId;;
     Operation_finish Errored (DError (PText "Operation aborted"));;
     mret (ReplyOk 200 "Result generation aborted"))
    (λ error, mret (ReplyError error)).

(** ** Vocabulary of the statements *)

(** The checks of the POST handler that come before the admin areas. *)
Definition passesEarlierChecks (env : Env) (projId scId : Z) (s : State) : Prop :=
  loadFault env = None
  ∧ (∀ r, latestOperation (operations (db s)) "generate-analysis" projId scId = Some r →
          or_status r ≠ Running)
  ∧ (∃ p, find (λ p, Z.eqb (pr_id p) projId) (projects (db s)) = Some p
          ∧ pr_status p = "active")
  ∧ (∃ sc, find (λ sc, Z.eqb (sc_id sc) scId && Z.eqb (sc_project_id sc) projId)
                (scenarios (db s)) = Some sc).

(** The three rows read by [generateResults] for a scenario. *)
Definition exportRows (scId : Z) (genAt activeEditing rnUpdatedAt : jsval)
    : list SettingRow :=
  [ {| st_scenario_id := scId; st_key := "res_gen_at"; st_value := genAt |};
    {| st_scenario_id := scId; st_key := "rn_active_editing"; st_value := activeEditing |};
    {| st_scenario_id := scId; st_key := "rn_updated_at"; st_value := rnUpdatedAt |} ].

(** What a run added to the trace. *)
Definition newEvents (s s' : State) : list Event :=
  drop (length (trace s)) (trace s').

(** The environment contract of the analysis container. *)
Definition environmentContract (cfg : Config) (projId scId : Z) (opId : option Z)
    : list (string * string) :=
  [ ("DB_URI", ap_db (analysisProcess cfg));
    ("PROJECT_ID", pretty projId);
    ("SCENARIO_ID", pretty scId);
    ("OPERATION_ID", prettyId opId);
    ("STORAGE_HOST", storageHost (analysisProcess cfg));
    ("STORAGE_PORT", storagePort (analysisProcess cfg));
    ("STORAGE_ENGINE", engine (storage cfg));
    ("STORAGE_ACCESS_KEY", accessKey (storage cfg));
    ("STORAGE_SECRET_KEY", secretKey (storage cfg));
    ("STORAGE_BUCKET", bucket (storage cfg));
    ("STORAGE_REGION", region (storage cfg));
    ("CONVERSION_DIR", "/conversion") ].

(** The part of the command line shared by the two backends: the
    container name and one [-e NAME=value] pair per variable. *)
Definition contractArgs (cfg : Config) (projId scId : Z) (opId : option Z) : list string :=
  ["run"; "--name";
   instanceId cfg +:+ "-analysisp" +:+ pretty projId +:+ "s" +:+ pretty scId;
   "--rm"]
  ++ flat_map (λ kv : string * string, ["-e"; fst kv +:+ "=" +:+ snd kv])
              (environmentContract cfg projId scId opId).

(** The optional size flag of the remote backend. *)
Definition sizeFlag (cfg : Config) : list string :=
  match hyperSize (analysisProcess cfg) with
  | Some sz => if String.eqb sz "" then [] else ["--size=" +:+ sz]
  | None => []
  end.

(** The stages of a run, and the event that marks the start of each; the
    analysis stage starts with the image pull. *)
Inductive Stage :=
| CloseDatabaseStage
| ExportRoadNetworkStage
| VectorTilesStage
| AnalysisStage.

Definition stageOf (e : Event) : option Stage :=
  match e with
  | EvCloseDatabase _ _ => Some CloseDatabaseStage
  | EvServiceStart _ => Some ExportRoadNetworkStage
  | EvCreateRoadNetworkVT _ => Some VectorTilesStage
  | EvSpawn _ (a :: _) _ => if String.eqb a "pull" then Some AnalysisStage else None
  | _ => None
  end.

Definition stagesStarted (evs : list Event) : list Stage := omap stageOf evs.

(** The container run was spawned. *)
Definition isRunSpawn (e : Event) : bool :=
  match e with
  | EvSpawn _ (a :: _) _ => String.eqb a "run"
  | _ => false
  end.

Definition containerSpawned (evs : list Event) : bool := existsb isRunSpawn evs.

(** [Operation.start] will not refuse: the identity has no unfinished record. *)
Definition canStart (d : Db) (projId scId : Z) : bool :=
  negb (existsb (λ r, sameIdentity "generate-analysis" projId scId r
                      && negb (isTerminal (or_status r)))
                (operations d)).

(** The record persisted by [Operation.start] in [generateResults]. *)
Definition startedRow (id projId scId : Z) (st : opStatus) (log : list (string * logData))
    : OperationRow :=
  {| or_id := id; or_name := "generate-analysis"; or_project_id := projId;
     or_scenario_id := scId; or_status := st; or_log := log |}.

Definition startEntry : string * logData :=
  ("start", DMessage "Analysis generation started").

(** The state in which [generateResults] hands over to [runStages]: the
    operation is started and logged, and the job key has a registry entry. *)
Definition startedState (projId scId : Z) (s : State) : State :=
  let id := nextId (operations (db s)) in
  {| db := set_operations
             (λ rows, map (appendLog (Some id) startEntry)
                          (rows ++ [startedRow id projId scId Running []]))
             (db s);
     runningProcesses := ensureEntry (jobKey projId scId) (runningProcesses s);
     thisOp := {| op_id := Some id; op_status := Running |};
     trace := trace s |}.

Definition allStages : list Stage :=
  [CloseDatabaseStage; ExportRoadNetworkStage; VectorTilesStage; AnalysisStage].

(** The identity of an operation record, and the single-flight invariant of
    the Operation Log: no record of an identity follows an unfinished
    record of the same identity. *)
Definition identityOf (r : OperationRow) : string * Z * Z :=
  (or_name r, or_project_id r, or_scenario_id r).

Definition singleFlight (rows : list OperationRow) : Prop :=
  ∀ l1 r l2, rows = l1 ++ r :: l2 →
             isTerminal (or_status r) = false →
             ∀ r', r' ∈ l2 → identityOf r' ≠ identityOf r.

(** ** Sample inputs *)

Module Sample.

Definition cfg (svc : string) : Config :=
  {| instanceId := "ram";
     analysisProcess :=
       {| service := svc; container := "wbtransport/ram-analysis:latest";
          ap_db := "postgresql://ram:ram@db/ram"; storageHost := "minio";
          storagePort := "9000"; hyperAccess := "AK"; hyperSecret := "SK";
          hyperSize := Some "s4" |};
     storage :=
       {| engine := "minio"; accessKey := "minio"; secretKey := "miniostorageengine";
          bucket := "ram"; region := "us-east-1" |} |}.

Definition proc (code : Z) (err : list string) : procBehaviour :=
  {| stderrChunks := err; exitCode := Some code |}.

(** Every collaborator succeeds; the analysis exits with [code] after
    writing [err] on stderr. *)
Definition env (svc : string) (code : Z) (err : list string) : Env :=
  {| config := cfg svc;
     DS_ENV := None;
     dateParse := λ _, None;
     loadFault := None;
     scenarioNotFoundMessage := "Scenario not found";
     projectNotFoundMessage := "Project not found";
     removeFileResult := λ _, Fulfils;
     closeDatabaseResult := Fulfils;
     exportRoadNetworkSignal := Complete None;
     vectorTilesResult := Fulfils;
     pullImageProc := proc 0 [];
     analysisProc := proc code err |}.

Definition setting (k : string) (v : jsval) : SettingRow :=
  {| st_scenario_id := 7; st_key := k; st_value := v |}.

(** Project 3 with scenario 7, a previous result file and a road network. *)
Definition database (genAt editing rnUpdatedAt : jsval) (ops : list OperationRow) : Db :=
  {| operations := ops;
     projects := [{| pr_id := 3; pr_status := "active" |}];
     scenarios := [{| sc_id := 7; sc_project_id := 3 |}];
     scenarios_settings :=
       [setting "rn_updated_at" rnUpdatedAt; setting "admin_areas" (JStr "[1,2]");
        setting "res_gen_at" genAt; setting "rn_active_editing" editing];
     scenarios_files :=
       [{| fl_id := 1; fl_project_id := 3; fl_scenario_id := 7;
           fl_type := "results-csv"; fl_path := "scenario-7/results.csv" |};
        {| fl_id := 2; fl_project_id := 3; fl_scenario_id := 7;
           fl_type := "road-network"; fl_path := "scenario-7/rn.osm" |}];
     results := [{| rs_project_id := 3; rs_scenario_id := 7 |}] |}.

Definition state (d : Db) (rp : gmap string Entry) : State :=
  {| db := d; runningProcesses := rp;
     thisOp := {| op_id := None; op_status := NotStarted |}; trace := [] |}.

Definition runningOp : OperationRow :=
  {| or_id := 1; or_name := "generate-analysis"; or_project_id := 3;
     or_scenario_id := 7; or_status := Running; or_log := [] |}.

End Sample.

(** ** Further vocabulary *)

(** The running check of the [POST] handler lets the request through. *)
Definition passesRunningCheck (env : Env) (projId scId : Z) (s : State) : Prop :=
  loadFault env = None
  ∧ ∀ r, latestOperation (operations (db s)) "generate-analysis" projId scId = Some r →
         or_status r ≠ Running.

(** A handler left everything as it was: store, registry and trace. *)
Definition untouched (s s' : State) : Prop :=
  db s' = db s ∧ runningProcesses s' = runningProcesses s ∧ trace s' = trace s.

(** The stored result files of a scenario, as selected by the [POST]
    handler, and the files it keeps. *)
Definition resultFiles (d : Db) (projId scId : Z) : list FileRow :=
  List.filter (isResultFile projId scId) (scenarios_files d).

Definition keptFiles (d : Db) (projId scId : Z) : list FileRow :=
  List.filter (λ f, negb (isResultFile projId scId f)) (scenarios_files d).

Definition keptResults (d : Db) (projId scId : Z) : list ResultRow :=
  List.filter (λ r, negb (Z.eqb (rs_project_id r) projId && Z.eqb (rs_scenario_id r) scId))
              (results d).

Definition removalEvents (d : Db) (projId scId : Z) : list Event :=
  map (λ f, EvRemoveFile (fl_path f)) (resultFiles d projId scId).

(** Two stores that differ at most in the operation log. *)
Definition sameTables (d d' : Db) : Prop :=
  projects d' = projects d
  ∧ scenarios d' = scenarios d
  ∧ scenarios_settings d' = scenarios_settings d
  ∧ scenarios_files d' = scenarios_files d
  ∧ results d' = results d.

(** The state of the [POST] handler once the stored results are removed. *)
Definition clearedState (projId scId : Z) (s : State) : State :=
  {| db := {| operations := operations (db s); projects := projects (db s);
              scenarios := scenarios (db s);
              scenarios_settings := scenarios_settings (db s);
              scenarios_files := keptFiles (db s) projId scId;
              results := keptResults (db s) projId scId |};
     runningProcesses := runningProcesses s;
     thisOp := thisOp s;
     trace := trace s ++ removalEvents (db s) projId scId |}.

(** The answers of the storage to the removal of the result files. *)
Definition removalResults (env : Env) (d : Db) (projId scId : Z) : list settle :=
  map (λ f, removeFileResult env (fl_path f)) (resultFiles d projId scId).

(** ** More sample inputs *)

Module Scenario.

(** An environment with every answer of the collaborators spelled out. *)
Definition env (svc : string) (mode fault : option string) (rm : string → settle)
    (close : settle) (sig : signal) (vt : settle) (pull run : procBehaviour) : Env :=
  {| config := Sample.cfg svc;
     DS_ENV := mode;
     dateParse := λ _, None;
     loadFault := fault;
     scenarioNotFoundMessage := "Scenario not found";
     projectNotFoundMessage := "Project not found";
     removeFileResult := rm;
     closeDatabaseResult := close;
     exportRoadNetworkSignal := sig;
     vectorTilesResult := vt;
     pullImageProc := pull;
     analysisProc := run |}.

Definition never : procBehaviour := {| stderrChunks := []; exitCode := None |}.

(** A stale road network, so that the export is needed. *)
Definition stale : Db :=
  Sample.database (JNum 1000) (JStr "true") (JNum 2000) [].

(** No editing, so that only the analysis runs. *)
Definition plain : Db :=
  Sample.database (JNum 0) (JStr "false") (JNum 0) [].

End Scenario.

(** Every character of a string passes a test. *)
Fixpoint allChars (P : Ascii.ascii → bool) (s : string) : bool :=
  match s with
  | EmptyString => true
  | String c s' => P c && allChars P s'
  end.

(** The characters that separate the two numbers in a job key and in a
    container name. *)
Definition notSpace (c : Ascii.ascii) : bool := negb (Ascii.eqb c " "%char).
Definition notLetterS (c : Ascii.ascii) : bool := negb (Ascii.eqb c "s"%char).

(** A slot that holds no handle: never assigned, or [null]. *)
Definition emptySlot (v : slot) : Prop := ∀ h, v ≠ SlotHandle h.

(** [`${service} rm -f ${containerName}`], with the name written out. *)
Definition removeCommand (cfg : Config) (projId scId : Z) : string :=
  service (analysisProcess cfg) +:+ " rm -f " +:+ instanceId cfg +:+ "-analysisp"
  +:+ pretty projId +:+ "s" +:+ pretty scId.

(** The record of an aborted operation. *)
Definition abortedRow (r : OperationRow) : OperationRow :=
  {| or_id := or_id r; or_name := or_name r; or_project_id := or_project_id r;
     or_scenario_id := or_scenario_id r; or_status := Errored;
     or_log := or_log r ++ [("error", DError (PText "Operation aborted"))] |}.

(** The kill of a job can go through: in test mode, or with a registry
    entry that holds a stage handle or belongs to a supported backend. *)
Definition killable (env : Env) (projId scId : Z) (s : State) : Prop :=
  testMode env = true
  ∨ ∃ e, runningProcesses s !! jobKey projId scId = Some e
         ∧ ((∃ h, updateRN_slot e = SlotHandle h)
            ∨ (∃ h, genVT_slot e = SlotHandle h)
            ∨ service (analysisProcess (config env)) = "docker"
            ∨ service (analysisProcess (config env)) = "hyper").

(** The error of the first stage that fails before the analysis, when the
    export is needed: the closing of the database, the export service, the
    lookup of the road network file, the tile generation. *)
Definition exportError (env : Env) (d : Db) (scId : Z) : option jsError :=
  match closeDatabaseResult env with
  | RejectsWith e => Some e
  | NeverSettles => None
  | Fulfils =>
      match exportRoadNetworkSignal env with
      | NoSignal => None
      | Complete (Some e) => Some e
      | Complete None =>
          match roadNetworkFile d scId with
          | None => Some (TypeError "Cannot read property 'path' of undefined")
          | Some _ =>
              match vectorTilesResult env with
              | RejectsWith e => Some e
              | _ => None
              end
          end
      end
  end.

(** The record of an operation that [generateResults] finished in error. *)
Definition failedRow (id projId scId : Z) (error : jsError) : OperationRow :=
  startedRow id projId scId Errored [startEntry; ("error", DError (errorPayload error))].

(** At most one of the two slots of an entry holds a handle. *)
Definition atMostOneHandle (e : Entry) : Prop :=
  emptySlot (updateRN_slot e) ∨ emptySlot (genVT_slot e).

(** The job key has no entry yet, or one without handles. *)
Definition noHandleRegistered (projId scId : Z) (s : State) : Prop :=
  ∀ e, runningProcesses s !! jobKey projId scId = Some e →
       emptySlot (updateRN_slot e) ∧ emptySlot (genVT_slot e).

(** What a kill does, read off the registry entry of the job key. *)
Definition killOutcome (env : Env) (projId scId : Z) (e : Entry) (s : State) : outcome unit :=
  let key := jobKey projId scId in
  let cfg := config env in
  match updateRN_slot e, genVT_slot e with
  | SlotHandle h, _ =>
      Fulfilled tt (set_runningProcesses (insert key (setSlot UpdateRN SlotNull e))
                                         (add_event (EvKill h) s))
  | _, SlotHandle h =>
      Fulfilled tt (set_runningProcesses (insert key (setSlot GenVT SlotNull e))
                                         (add_event (EvKill h) s))
  | _, _ =>
      if String.eqb (service (analysisProcess cfg)) "hyper"
      then Fulfilled tt (add_event (EvExec (removeCommand cfg projId scId) (hyperEnv cfg)) s)
      else if String.eqb (service (analysisProcess cfg)) "docker"
      then Fulfilled tt (add_event (EvExec (removeCommand cfg projId scId) []) s)
      else Rejected (Error (invalidServiceMessage (service (analysisProcess cfg)))) s
  end.

(** ** The storage client ([app/s3/index.js]) *)

(** The options handed to [new Minio.Client]; a property that is not set
    is [None]. *)
Record ClientOptions := {
  co_endPoint : string;
  co_port : option string;
  co_secure : option bool;
  co_accessKey : string;
  co_secretKey : string
}.

(** The [switch (engine)] run when the module is loaded: the options of
    the client, or the error thrown.  [host] and [port] are the two
    properties of [config.storage] that the orchestrator does not read. *)
Definition minioClient (host port : string) (st : StorageConfig)
    : jsError + ClientOptions :=
  if String.eqb (engine st) "minio" then
    inr {| co_endPoint := host; co_port := Some port; co_secure := Some false;
           co_accessKey := accessKey st; co_secretKey := secretKey st |}
  else if String.eqb (engine st) "s3" then
    inr {| co_endPoint := "s3.amazonaws.com"; co_port := None; co_secure := None;
           co_accessKey := accessKey st; co_secretKey := secretKey st |}
  else inl (Error "Invalid storage engine. Use s3 or minio").

(** ** The steps of a run *)

(** What a run starts, one step per event: the three stages of the export,
    then the two spawns of the analysis stage, the image pull and the
    container run. *)
Inductive Step :=
| CloseDatabaseStep
| ExportRoadNetworkStep
| VectorTilesStep
| ImagePullStep
| ContainerRunStep.

Definition stepOf (e : Event) : option Step :=
  match e with
  | EvCloseDatabase _ _ => Some CloseDatabaseStep
  | EvServiceStart _ => Some ExportRoadNetworkStep
  | EvCreateRoadNetworkVT _ => Some VectorTilesStep
  | EvSpawn _ (a :: _) _ =>
      if String.eqb a "pull" then Some ImagePullStep
      else if String.eqb a "run" then Some ContainerRunStep
      else None
  | _ => None
  end.

Definition stepsStarted (evs : list Event) : list Step := omap stepOf evs.

Definition allSteps : list Step :=
  [CloseDatabaseStep; ExportRoadNetworkStep; VectorTilesStep; ImagePullStep;
   ContainerRunStep].

(** An event of a run is a step, or the rejection dropped by [runProcess]
    for an unsupported backend; a run kills nothing, executes no command
    and removes no file. *)
Definition stepOrDroppedRejection (e : Event) : Prop :=
  is_Some (stepOf e) ∨ ∃ err, e = EvUnhandledRejection err.

(** The image pull closes, and the configured backend is one of the two
    that [runProcess] spawns. *)
Definition pullCloses (env : Env) : Prop := is_Some (exitCode (pullImageProc env)).

Definition supportedService (env : Env) : Prop :=
  service (analysisProcess (config env)) = "docker"
  ∨ service (analysisProcess (config env)) = "hyper".

(** * Verification *)

(** ** Reasoning about runs *)

Ltac unfold_run :=
  unfold try_catch, detach, await, emit, modify, getState, throw, hang,
         setImmediatePromise, mbind, M_bind, mret, M_ret in *.

Lemma latestOperation_elem rows name projId scId r :
  latestOperation rows name projId scId = Some r →
  r ∈ rows ∧ sameIdentity name projId scId r = true.
Proof.
  unfold latestOperation. intros Hlast.
  apply last_Some_elem_of in Hlast.
  apply list_elem_of_filter in Hlast. tauto.
Qed.

Lemma opStatus_eqb_eq a b : opStatus_eqb a b = true ↔ a = b.
Proof. destruct a, b; simpl; split; congruence. Qed.

Lemma testMode_off_kill env projId scId :
  testMode env = false →
  killAnalysisProcess env projId scId =
  (let identifier := jobKey projId scId in
   u ← readSlot identifier UpdateRN;
   match u with
   | SlotHandle h => emit (EvKill h);; writeSlot identifier UpdateRN SlotNull
   | _ =>
       g ← readSlot identifier GenVT;
       match g with
       | SlotHandle h => emit (EvKill h);; writeSlot identifier GenVT SlotNull
       | _ =>
           let cfg := config env in
           let service := service (analysisProcess cfg) in
           let cmdline := service +:+ " rm -f " +:+ containerName cfg projId scId in
           if String.eqb service "hyper" then emit (EvExec cmdline (hyperEnv cfg))
           else if String.eqb service "docker" then emit (EvExec cmdline [])
           else throw (Error (invalidServiceMessage service))
       end
   end).
Proof. intros Hoff. unfold killAnalysisProcess. now rewrite Hoff. Qed.

(** In test mode the kill is skipped altogether. *)
Lemma killAnalysisProcess_test_mode env projId scId s :
  testMode env = true → killAnalysisProcess env projId scId s = Fulfilled tt s.
Proof. intros Hon. unfold killAnalysisProcess. now rewrite Hon. Qed.

(** ** Admission: a running operation blocks a new job *)

(** C1. When the operation record of (projId, scId) loaded by the POST
    handler is running, the handler replies with the DataConflictError
    "Result generation already running"; the store and the registry are
    unchanged and nothing was done outside, so no stored result was removed
    and no job was started. *)
Theorem post_rejects_while_running env projId scId s r :
  loadFault env = None →
  latestOperation (operations (db s)) "generate-analysis" projId scId = Some r →
  or_status r = Running →
  ∃ s', postGenerate env projId scId s =
          Fulfilled (ReplyError (DataConflictError "Result generation already running")) s'
        ∧ db s' = db s
        ∧ runningProcesses s' = runningProcesses s
        ∧ trace s' = trace s.
Proof.
  intros Hfault Hlatest Hrun.
  unfold postGenerate, newOperation, Operation_loadByData, Operation_isStarted.
  rewrite Hfault. unfold_run. simpl. rewrite Hlatest. simpl. rewrite Hrun. simpl.
  eexists. repeat split.
Qed.

Lemma post_rejects_while_running_witness :
  let s := Sample.state (Sample.database (JNum 0) (JStr "true") (JNum 5) [Sample.runningOp]) ∅ in
  ∃ s', postGenerate (Sample.env "docker" 0 []) 3 7 s =
          Fulfilled (ReplyError (DataConflictError "Result generation already running")) s'
        ∧ db s' = db s
        ∧ runningProcesses s' = runningProcesses s
        ∧ trace s' = trace s.
Proof.
  intros s.
  apply (post_rejects_while_running (Sample.env "docker" 0 []) 3 7 s Sample.runningOp);
    reflexivity.
Defined.

(** ** Single flight *)

Lemma singleFlight_latest rows name projId scId r :
  singleFlight rows →
  r ∈ rows →
  sameIdentity name projId scId r = true →
  or_status r = Running →
  latestOperation rows name projId scId = Some r.
Proof.
  intros Hsf Hin Hsame Hrun.
  apply list_elem_of_split in Hin as (l1 & l2 & ->).
  unfold latestOperation.
  rewrite filter_app, filter_cons_True by exact Hsame.
  assert (Hnil : filter (λ r', sameIdentity name projId scId r' = true) l2 = []).
  { destruct (filter _ l2) as [|r' rest] eqn:Hf; [reflexivity|exfalso].
    assert (Hr' : r' ∈ filter (λ r', sameIdentity name projId scId r' = true) l2)
      by (rewrite Hf; left).
    apply list_elem_of_filter in Hr' as [Hsame' Hr'].
    apply (Hsf l1 r l2 eq_refl) in Hr'; [|now rewrite Hrun].
    apply Hr'. unfold sameIdentity in Hsame, Hsame'.
    apply andb_true_iff in Hsame as [Hsame Hsc], Hsame' as [Hsame' Hsc'].
    apply andb_true_iff in Hsame as [Hname Hp], Hsame' as [Hname' Hp'].
    apply String.eqb_eq in Hname, Hname'. apply Z.eqb_eq in Hp, Hp', Hsc, Hsc'.
    unfold identityOf. congruence. }
  rewrite Hnil. apply last_snoc.
Qed.

Lemma sameIdentity_identityOf name projId scId r :
  sameIdentity name projId scId r = true ↔ identityOf r = (name, projId, scId).
Proof.
  unfold sameIdentity, identityOf. rewrite !andb_true_iff, String.eqb_eq, !Z.eqb_eq.
  split; [intros [[-> ->] ->]; reflexivity | intros [= -> -> ->]; auto].
Qed.

(** [Operation.start] keeps the invariant: it adds a record only when the
    identity has no unfinished one. *)
Lemma Operation_start_singleFlight name projId scId s :
  singleFlight (operations (db s)) →
  singleFlight (operations (db (finalState (Operation_start name projId scId s)))).
Proof.
  intros Hsf. unfold Operation_start. unfold_run. simpl.
  destruct (existsb _ (operations (db s))) eqn:Hex; simpl; [exact Hsf|].
  intros l1 r l2 Heq Hunf r' Hr'.
  destruct l2 as [|y l2 _] using rev_ind.
  - inversion Hr'.
  - rewrite app_comm_cons, app_assoc in Heq.
    apply app_inj_tail in Heq as [Hrows <-].
    apply elem_of_app in Hr' as [Hr' | Hr'].
    + exact (Hsf l1 r l2 Hrows Hunf r' Hr').
    + apply list_elem_of_singleton in Hr' as ->. intros Hid.
      assert (Hin : In r (operations (db s))).
      { rewrite Hrows. apply in_elt. }
      assert (Hfalse : existsb (λ r, sameIdentity name projId scId r
                                     && negb (isTerminal (or_status r)))
                               (operations (db s)) = true).
      { apply existsb_exists. exists r. split; [exact Hin|].
        rewrite Hunf. simpl. rewrite andb_true_r.
        apply sameIdentity_identityOf. now rewrite <- Hid. }
      congruence.
Qed.

(** [Operation.finish] with a terminal status keeps the invariant. *)
Lemma Operation_finish_singleFlight st data s :
  isTerminal st = true →
  singleFlight (operations (db s)) →
  singleFlight (operations (db (finalState (Operation_finish st data s)))).
Proof.
  intros Hterm Hsf. unfold Operation_finish. unfold_run. simpl.
  intros l1 r l2 Heq Hunf r' Hr'.
  apply map_eq_app in Heq as (k1 & k2 & Hrows & <- & Hk2).
  destruct k2 as [|r0 k2]; [discriminate|]. simpl in Hk2.
  injection Hk2 as <- <-.
  apply list_elem_of_In, in_map_iff in Hr' as (r0' & <- & Hr0').
  assert (Hid : ∀ x, identityOf
            (setStatus (op_id (thisOp s)) st
               (appendLog (op_id (thisOp s)) (statusName st, data) x)) = identityOf x).
  { intros x. unfold setStatus, appendLog.
    repeat (case_bool_decide; simpl); reflexivity. }
  rewrite !Hid.
  apply (Hsf k1 r0 k2 Hrows); [|now apply list_elem_of_In].
  revert Hunf. unfold setStatus, appendLog.
  repeat (case_bool_decide; simpl); congruence.
Qed.

(** The form of C1 on the records themselves: in a log that satisfies the
    invariant, a running record of the identity blocks the POST handler. *)
Corollary post_rejects_running_record env projId scId s r :
  loadFault env = None →
  singleFlight (operations (db s)) →
  r ∈ operations (db s) →
  sameIdentity "generate-analysis" projId scId r = true →
  or_status r = Running →
  ∃ s', postGenerate env projId scId s =
          Fulfilled (ReplyError (DataConflictError "Result generation already running")) s'
        ∧ db s' = db s
        ∧ runningProcesses s' = runningProcesses s
        ∧ trace s' = trace s.
Proof.
  intros Hfault Hsf Hin Hsame Hrun.
  unfold postGenerate, newOperation, Operation_loadByData, Operation_isStarted.
  rewrite Hfault. unfold_run. simpl.
  rewrite (singleFlight_latest _ _ _ _ r Hsf Hin Hsame Hrun). simpl.
  rewrite Hrun. simpl. eexists. repeat split.
Qed.

(** ** Abort: nothing to abort *)

(** C5. When no generate-analysis record of (projId, scId) is running, the
    DELETE handler replies with the DataConflictError "Result generation
    not running" and kills nothing: the store, the registry and the trace
    are unchanged.  This holds when the identity has no record at all, and
    also when the load fails for another reason, whatever its message. *)
Theorem delete_rejects_when_not_running env projId scId s :
  (∀ r, r ∈ operations (db s) →
        sameIdentity "generate-analysis" projId scId r = true →
        or_status r ≠ Running) →
  ∃ s', deleteGenerate env projId scId s =
          Fulfilled (ReplyError (DataConflictError "Result generation not running")) s'
        ∧ db s' = db s
        ∧ runningProcesses s' = runningProcesses s
        ∧ trace s' = trace s.
Proof.
  intros Hnone.
  unfold deleteGenerate, newOperation, Operation_loadByData, Operation_isStarted.
  destruct (loadFault env) as [msg|]; unfold_run; simpl.
  - destruct (includes "not exist" msg); simpl; eexists; repeat split.
  - destruct (latestOperation (operations (db s)) "generate-analysis" projId scId)
      as [r|] eqn:Hlatest; simpl.
    + apply latestOperation_elem in Hlatest as [Hin Hsame].
      specialize (Hnone r Hin Hsame).
      destruct (or_status r); simpl; try congruence; eexists; repeat split.
    + eexists; repeat split.
Qed.

Lemma delete_rejects_when_not_running_witness :
  let s := Sample.state (Sample.database (JNum 0) (JStr "true") (JNum 5) []) ∅ in
  ∃ s', deleteGenerate (Sample.env "docker" 0 []) 3 7 s =
          Fulfilled (ReplyError (DataConflictError "Result generation not running")) s'
        ∧ db s' = db s
        ∧ runningProcesses s' = runningProcesses s
        ∧ trace s' = trace s.
Proof.
  intros s.
  apply (delete_rejects_when_not_running (Sample.env "docker" 0 []) 3 7 s).
  intros r Hin. simpl in Hin. inversion Hin.
Defined.

(** ** Cancellation *)

(** C6. Outside test mode, with a handle in the updateRN slot of the job
    key, [killAnalysisProcess] kills that handle, sets the slot to null and
    resolves.  The kill is the only outside effect (no second kill, no
    container removal), the genVT slot keeps its value and the other
    entries of the registry are untouched. *)
Theorem kill_stops_at_updateRN env projId scId s e h :
  testMode env = false →
  runningProcesses s !! jobKey projId scId = Some e →
  updateRN_slot e = SlotHandle h →
  ∃ s', killAnalysisProcess env projId scId s = Fulfilled tt s'
        ∧ trace s' = trace s ++ [EvKill h]
        ∧ runningProcesses s' =
            <[jobKey projId scId :=
                {| updateRN_slot := SlotNull; genVT_slot := genVT_slot e |}]>
              (runningProcesses s)
        ∧ db s' = db s.
Proof.
  intros Hoff Hentry Hslot.
  rewrite testMode_off_kill by exact Hoff.
  unfold readSlot, writeSlot. unfold_run. simpl.
  rewrite Hentry. simpl. rewrite Hslot. simpl. rewrite Hentry. simpl.
  eexists. repeat split.
Qed.

Lemma kill_stops_at_updateRN_witness :
  let h := HService "export-road-network" 3 7 (Some 1) in
  let g := HVectorTiles 3 7 "scenario-7/rn.osm" in
  let e := {| updateRN_slot := SlotHandle h; genVT_slot := SlotHandle g |} in
  let s := Sample.state (Sample.database (JNum 0) (JStr "true") (JNum 5) [Sample.runningOp])
             {[ jobKey 3 7 := e ]} in
  ∃ s', killAnalysisProcess (Sample.env "docker" 0 []) 3 7 s = Fulfilled tt s'
        ∧ trace s' = trace s ++ [EvKill h]
        ∧ runningProcesses s' =
            <[jobKey 3 7 :=
                {| updateRN_slot := SlotNull; genVT_slot := genVT_slot e |}]>
              (runningProcesses s)
        ∧ db s' = db s.
Proof.
  intros h g e s.
  apply (kill_stops_at_updateRN (Sample.env "docker" 0 []) 3 7 s e h).
  - reflexivity.
  - apply lookup_singleton_eq.
  - reflexivity.
Defined.




(** ** Admission: the admin areas check *)

(** C9. For a request that passes the earlier checks: when the scenario
    has no admin_areas row, the POST handler replies with the TypeError of
    reading [value] on [undefined]; the DataConflictError "No admin areas
    selected" is the reply when the row exists and holds '[]'.  In both
    cases nothing is removed and no job is started. *)
Theorem post_without_admin_areas_row env projId scId s :
  passesEarlierChecks env projId scId s →
  (findAdminAreas (db s) scId = None →
   ∃ s', postGenerate env projId scId s =
           Fulfilled (ReplyError (TypeError "Cannot read property 'value' of undefined")) s'
         ∧ db s' = db s ∧ trace s' = trace s)
  ∧ (∀ row, findAdminAreas (db s) scId = Some row →
            st_value row = JStr "[]" →
            ∃ s', postGenerate env projId scId s =
                    Fulfilled (ReplyError (DataConflictError "No admin areas selected")) s'
                  ∧ db s' = db s ∧ trace s' = trace s).
Proof.
  intros (Hfault & Hnotrunning & (p & Hproject & Hactive) & (sc & Hscenario)).
  split; [intros Hnone | intros row Hrow Hvalue];
    unfold postGenerate, getProject;
    unfold newOperation, Operation_loadByData, Operation_isStarted;
    rewrite Hfault; unfold_run; simpl;
    destruct (latestOperation (operations (db s)) "generate-analysis" projId scId)
      as [r|] eqn:Hlatest; simpl;
    try (specialize (Hnotrunning r eq_refl);
         destruct (or_status r) eqn:Hst; simpl; try congruence);
    rewrite Hproject; simpl; rewrite Hactive; simpl;
    rewrite Hscenario; simpl;
    first [ rewrite Hnone | rewrite Hrow; simpl; rewrite Hvalue ]; simpl;
    eexists; repeat split.
Qed.

Lemma post_without_admin_areas_row_witness :
  let env := Sample.env "docker" 0 [] in
  let d := Sample.database (JNum 0) (JStr "true") (JNum 5) [] in
  let noRow := Sample.state
    {| operations := []; projects := projects d; scenarios := scenarios d;
       scenarios_settings := [Sample.setting "res_gen_at" (JNum 0)];
       scenarios_files := scenarios_files d; results := results d |} ∅ in
  let emptyRow := Sample.state
    {| operations := []; projects := projects d; scenarios := scenarios d;
       scenarios_settings := [Sample.setting "admin_areas" (JStr "[]")];
       scenarios_files := scenarios_files d; results := results d |} ∅ in
  (∃ s', postGenerate env 3 7 noRow =
           Fulfilled (ReplyError (TypeError "Cannot read property 'value' of undefined")) s'
         ∧ db s' = db noRow ∧ trace s' = trace noRow)
  ∧ (∃ s', postGenerate env 3 7 emptyRow =
             Fulfilled (ReplyError (DataConflictError "No admin areas selected")) s'
           ∧ db s' = db emptyRow ∧ trace s' = trace emptyRow).
Proof.
  intros env d noRow emptyRow.
  assert (Hadm : ∀ st, passesEarlierChecks env 3 7 (Sample.state
            {| operations := []; projects := projects d; scenarios := scenarios d;
               scenarios_settings := st;
               scenarios_files := scenarios_files d; results := results d |} ∅)).
  { intros st. repeat split.
    - intros r Hr. discriminate Hr.
    - eexists. split; reflexivity.
    - eexists. reflexivity. }
  split.
  - apply (post_without_admin_areas_row env 3 7 noRow (Hadm _)). reflexivity.
  - apply (proj2 (post_without_admin_areas_row env 3 7 emptyRow (Hadm _))
             (Sample.setting "admin_areas" (JStr "[]"))); reflexivity.
Defined.

(** ** The export decision *)

Lemma Permutation_three {A} (a b c : A) (l : list A) :
  Permutation l [a; b; c] →
  l = [a; b; c] ∨ l = [a; c; b] ∨ l = [b; a; c]
  ∨ l = [b; c; a] ∨ l = [c; a; b] ∨ l = [c; b; a].
Proof.
  intros Hp.
  destruct (Permutation_vs_cons_inv Hp) as (l1 & l2 & ->).
  apply (Permutation_app_inv l1 l2 [] [b; c] a) in Hp. simpl in Hp.
  symmetry in Hp. apply Permutation_length_2_inv in Hp.
  destruct l1 as [|x [|y [|z l1]]]; simpl in *;
    destruct Hp as [Hp | Hp]; try discriminate;
    first [ injection Hp as -> -> | injection Hp as -> | idtac ];
    subst; tauto.
Qed.

(** Whatever the order of the three rows in the table, the destructuring
    binds [genAt], [activeEditing] and [rnUpdatedAt] to their values. *)
Lemma readExportSettings_three d scId g a u :
  Permutation (List.filter (isExportSetting scId) (scenarios_settings d))
              (exportRows scId g a u) →
  readExportSettings d scId = (g, a, u).
Proof.
  intros Hp. unfold readExportSettings.
  apply Permutation_three in Hp.
  destruct Hp as [-> | [-> | [-> | [-> | [-> | ->]]]]]; reflexivity.
Qed.

Lemma numGt_spec a b :
  numGt a b = true ↔ ∃ x y, a = Some x ∧ b = Some y ∧ (y < x)%Z.
Proof.
  destruct a as [x|], b as [y|]; simpl; split.
  - intros H. apply Z.ltb_lt in H. eauto.
  - intros (x' & y' & [= ->] & [= ->] & H). now apply Z.ltb_lt.
  - discriminate.
  - intros (? & ? & _ & [=] & _).
  - discriminate.
  - intros (? & ? & [=] & _).
  - discriminate.
  - intros (? & ? & [=] & _).
Qed.

Lemma jsval_eqb_eq a b : jsval_eqb a b = true ↔ a = b.
Proof.
  destruct a, b; simpl; split; try congruence; try discriminate.
  - intros H. apply Z.eqb_eq in H. congruence.
  - intros [= ->]. apply Z.eqb_refl.
  - intros H. apply String.eqb_eq in H. congruence.
  - intros [= ->]. apply String.eqb_refl.
Qed.

Lemma decideNeedExport_spec env g a u :
  decideNeedExport env g a u = true ↔
  a = JStr "true"
  ∧ ∃ tu tg, timeValue env u = Some tu ∧ timeValue env g = Some tg ∧ (tg < tu)%Z.
Proof.
  unfold decideNeedExport.
  destruct (jsval_eqb a (JStr "true")) eqn:Ha.
  - apply jsval_eqb_eq in Ha. rewrite numGt_spec. tauto.
  - split; [discriminate|]. intros [-> _]. discriminate Ha.
Qed.

(** C2, as the code has it.  When the scenario has its three settings,
    [needExport] is true exactly when rn_active_editing is the string
    'true' and the time value of rn_updated_at is strictly greater than the
    one of res_gen_at; a literal 0 has time value 0 and every other value
    goes through [Date].  With editing enabled and res_gen_at equal to 0,
    [needExport] is true exactly when the time value of rn_updated_at is
    positive. *)
Theorem needExport_iff env d scId g a u :
  Permutation (List.filter (isExportSetting scId) (scenarios_settings d))
              (exportRows scId g a u) →
  (needExportOf env d scId = true ↔
   a = JStr "true"
   ∧ ∃ tu tg, timeValue env u = Some tu ∧ timeValue env g = Some tg ∧ (tg < tu)%Z)
  ∧ (a = JStr "true" → g = JNum 0 →
     (needExportOf env d scId = true ↔ ∃ tu, timeValue env u = Some tu ∧ (0 < tu)%Z)).
Proof.
  intros Hp. unfold needExportOf.
  rewrite (readExportSettings_three d scId g a u Hp).
  split.
  - apply decideNeedExport_spec.
  - intros -> ->. rewrite decideNeedExport_spec. split.
    + intros (_ & tu & tg & Hu & Hg & Hlt).
      injection Hg as <-. eauto.
    + intros (tu & Hu & Hlt). split; [reflexivity|].
      exists tu, 0%Z. auto.
Qed.

Lemma needExport_iff_witness :
  let env := Sample.env "docker" 0 [] in
  let d := Sample.database (JNum 0) (JStr "true") (JNum 1500000000000) [] in
  (needExportOf env d 7 = true ↔
   JStr "true" = JStr "true"
   ∧ ∃ tu tg, timeValue env (JNum 1500000000000) = Some tu
              ∧ timeValue env (JNum 0) = Some tg ∧ (tg < tu)%Z)
  ∧ (needExportOf env d 7 = true ↔
     ∃ tu, timeValue env (JNum 1500000000000) = Some tu ∧ (0 < tu)%Z).
Proof.
  intros env d.
  destruct (needExport_iff env d 7 (JNum 0) (JStr "true") (JNum 1500000000000)) as [Hiff Hzero].
  - exact (Permutation_cons_append
             [Sample.setting "res_gen_at" (JNum 0);
              Sample.setting "rn_active_editing" (JStr "true")]
             (Sample.setting "rn_updated_at" (JNum 1500000000000))).
  - split; [exact Hiff | exact (Hzero eq_refl eq_refl)].
Defined.

(** C2, as the spec has it, fails: with editing enabled and res_gen_at
    equal to 0, [needExport] is not true for every rn_updated_at; it is
    false when rn_updated_at is 0 as well. *)
Lemma needExport_unset_genAt_counterexample :
  needExportOf (Sample.env "docker" 0 [])
               (Sample.database (JNum 0) (JStr "true") (JNum 0) []) 7 = false
  ∧ ¬ (∀ u, needExportOf (Sample.env "docker" 0 [])
                         (Sample.database (JNum 0) (JStr "true") u []) 7 = true).
Proof.
  split; [reflexivity|].
  intros Hall. specialize (Hall (JNum 0)). discriminate Hall.
Qed.

(** Two settings with the same raw value never ask for an export, whatever
    the host's date parser makes of them. *)
Lemma decideNeedExport_same_value env a v : decideNeedExport env v a v = false.
Proof.
  unfold decideNeedExport, numGt.
  destruct (jsval_eqb a (JStr "true")); [|reflexivity].
  destruct (timeValue env v); [apply Z.ltb_irrefl | reflexivity].
Qed.

(** The cases listed with the property in the spec. *)
Example needExport_editing_disabled :
  needExportOf (Sample.env "docker" 0 [])
    (Sample.database (JNum 1000) (JStr "false") (JNum 2000) []) 7 = false.
Proof. reflexivity. Qed.

Example needExport_timestamps_equal :
  needExportOf (Sample.env "docker" 0 [])
    (Sample.database (JNum 2000) (JStr "true") (JNum 2000) []) 7 = false.
Proof. reflexivity. Qed.

Example needExport_updated_after_generation :
  needExportOf (Sample.env "docker" 0 [])
    (Sample.database (JNum 1000) (JStr "true") (JNum 2000) []) 7 = true.
Proof. reflexivity. Qed.

(** ** The spawn contract *)

Lemma newEvents_app s s' evs : trace s' = trace s ++ evs → newEvents s s' = evs.
Proof. unfold newEvents. intros ->. apply drop_app_length. Qed.

Lemma baseArgs_contract cfg projId scId opId :
  baseArgs cfg projId scId opId = contractArgs cfg projId scId opId.
Proof. reflexivity. Qed.

(** C8. [runProcess] spawns the configured backend exactly once, with the
    container named [{instanceId}-analysisp{projId}s{scId}] and the twelve
    variables of the contract, each as [-e NAME=value], followed by
    [--network ram] on docker, by the size flag on hyper when a size is
    configured, and by the image; the credentials HYPER_ACCESS and
    HYPER_SECRET are passed in the environment on hyper only. *)
Theorem runProcess_spawn_contract env projId scId opId s :
  let cfg := config env in
  let s' := finalState (runProcess env projId scId opId s) in
  map fst (environmentContract cfg projId scId opId) =
    ["DB_URI"; "PROJECT_ID"; "SCENARIO_ID"; "OPERATION_ID"; "STORAGE_HOST";
     "STORAGE_PORT"; "STORAGE_ENGINE"; "STORAGE_ACCESS_KEY"; "STORAGE_SECRET_KEY";
     "STORAGE_BUCKET"; "STORAGE_REGION"; "CONVERSION_DIR"]
  ∧ (service (analysisProcess cfg) = "docker" →
     newEvents s s' =
       [EvSpawn "docker"
          (contractArgs cfg projId scId opId ++ ["--network"; "ram"]
           ++ [container (analysisProcess cfg)])
          []])
  ∧ (service (analysisProcess cfg) = "hyper" →
     newEvents s s' =
       [EvSpawn "hyper"
          (contractArgs cfg projId scId opId ++ sizeFlag cfg
           ++ [container (analysisProcess cfg)])
          [("HYPER_ACCESS", hyperAccess (analysisProcess cfg));
           ("HYPER_SECRET", hyperSecret (analysisProcess cfg))]]).
Proof.
  intros cfg s'. split; [reflexivity|].
  subst s'. unfold runProcess, serviceArgs. fold cfg.
  rewrite baseArgs_contract.
  split; intros Hsvc; rewrite Hsvc; simpl String.eqb; cbv iota;
    unfold_run; apply newEvents_app.
  - destruct (exitCode (analysisProc env)) as [code|]; simpl;
      [destruct (negb (code =? 0)%Z)|]; simpl;
      rewrite <- ?app_assoc; reflexivity.
  - unfold sizeFlag.
    destruct (hyperSize (analysisProcess cfg)) as [sz|];
      [destruct (String.eqb sz "")|];
      (destruct (exitCode (analysisProc env)) as [code|]; simpl;
       [destruct (negb (code =? 0)%Z)|]; simpl;
       rewrite <- ?app_assoc, ?app_nil_r; reflexivity).
Qed.

Lemma runProcess_spawn_contract_witness :
  let docker := Sample.env "docker" 0 [] in
  let hyper := Sample.env "hyper" 0 [] in
  let s := Sample.state (Sample.database (JNum 0) (JStr "true") (JNum 5) []) ∅ in
  newEvents s (finalState (runProcess docker 3 7 (Some 1) s)) =
    [EvSpawn "docker"
       (contractArgs (config docker) 3 7 (Some 1) ++ ["--network"; "ram"]
        ++ [container (analysisProcess (config docker))])
       []]
  ∧ newEvents s (finalState (runProcess hyper 3 7 (Some 1) s)) =
      [EvSpawn "hyper"
         (contractArgs (config hyper) 3 7 (Some 1) ++ sizeFlag (config hyper)
          ++ [container (analysisProcess (config hyper))])
         [("HYPER_ACCESS", hyperAccess (analysisProcess (config hyper)));
          ("HYPER_SECRET", hyperSecret (analysisProcess (config hyper)))]].
Proof.
  intros docker hyper s. split.
  - exact (proj1 (proj2 (runProcess_spawn_contract docker 3 7 (Some 1) s)) eq_refl).
  - exact (proj2 (proj2 (runProcess_spawn_contract hyper 3 7 (Some 1) s)) eq_refl).
Defined.

(** ** An unsupported backend *)

Lemma serviceArgs_unsupported cfg args :
  service (analysisProcess cfg) ≠ "docker" →
  service (analysisProcess cfg) ≠ "hyper" →
  serviceArgs cfg args = None.
Proof.
  intros Hd Hh. unfold serviceArgs.
  apply String.eqb_neq in Hd, Hh. now rewrite Hd, Hh.
Qed.

(** C3, as the code has it.  With a service name other than docker and
    hyper, [spawnAnalysisProcess] first spawns the image pull with that
    name as the command, and spawns nothing else: the container run is not
    attempted. *)
Theorem unsupported_service_spawns_pull_only env projId scId opId s :
  let cfg := config env in
  let s' := finalState (spawnAnalysisProcess env projId scId opId s) in
  service (analysisProcess cfg) ≠ "docker" →
  service (analysisProcess cfg) ≠ "hyper" →
  ∃ rest,
    newEvents s s' =
      EvSpawn (service (analysisProcess cfg))
              ["pull"; container (analysisProcess cfg)] (hyperEnv cfg) :: rest
    ∧ ∀ cmd args penv, EvSpawn cmd args penv ∉ rest.
Proof.
  intros cfg s' Hd Hh. subst s'.
  unfold spawnAnalysisProcess, pullImage, runProcess. fold cfg.
  rewrite (serviceArgs_unsupported cfg _ Hd Hh).
  unfold_run.
  destruct (exitCode (pullImageProc env)) as [code|]; simpl.
  - eexists. split.
    + apply newEvents_app. simpl. rewrite <- app_assoc. reflexivity.
    + intros cmd args penv Hin.
      apply list_elem_of_singleton in Hin. discriminate Hin.
  - eexists. split.
    + apply newEvents_app. reflexivity.
    + intros cmd args penv Hin. inversion Hin.
Qed.

Lemma unsupported_service_spawns_pull_only_witness :
  let env := Sample.env "podman" 0 [] in
  let s := Sample.state (Sample.database (JNum 0) (JStr "true") (JNum 5) []) ∅ in
  ∃ rest,
    newEvents s (finalState (spawnAnalysisProcess env 3 7 (Some 1) s)) =
      EvSpawn "podman" ["pull"; "wbtransport/ram-analysis:latest"]
              [("HYPER_ACCESS", "AK"); ("HYPER_SECRET", "SK")] :: rest
    ∧ ∀ cmd args penv, EvSpawn cmd args penv ∉ rest.
Proof.
  intros env s.
  apply (unsupported_service_spawns_pull_only env 3 7 (Some 1) s); discriminate.
Defined.

(** C3, as the spec has it, fails.  With the service name podman the image
    pull is spawned, the promise of [spawnAnalysisProcess] is not rejected
    (it never settles), and [generateResults] leaves the operation
    running. *)
Lemma unsupported_service_counterexample :
  let env := Sample.env "podman" 0 [] in
  let s := Sample.state (Sample.database (JNum 0) (JStr "false") (JNum 0) []) ∅ in
  EvSpawn "podman" ["pull"; "wbtransport/ram-analysis:latest"]
          [("HYPER_ACCESS", "AK"); ("HYPER_SECRET", "SK")]
    ∈ trace (finalState (spawnAnalysisProcess env 3 7 (Some 1) s))
  ∧ (∀ e s', spawnAnalysisProcess env 3 7 (Some 1) s ≠ Rejected e s')
  ∧ (∃ s', generateResults env 3 7 s = Pending s'
           ∧ map or_status (operations (db s')) = [Running]).
Proof.
  intros env s. split; [|split].
  - vm_compute. left.
  - intros e s' H. vm_compute in H. discriminate H.
  - eexists. split; [vm_compute; reflexivity | reflexivity].
Qed.

(** ** Runs of the orchestrator *)

Lemma ensureEntry_lookup k (rp : gmap string Entry) : is_Some (ensureEntry k rp !! k).
Proof.
  unfold ensureEntry. destruct (rp !! k) eqn:Hk.
  - rewrite Hk. eauto.
  - rewrite lookup_insert_eq. eauto.
Qed.

Lemma generateResults_started env projId scId s :
  testMode env = false →
  canStart (db s) projId scId = true →
  generateResults env projId scId s =
  try_catch
    (runStages env projId scId (Some (nextId (operations (db s))))
               (needExportOf env (db s) scId))
    (finishOnError (jobKey projId scId))
    (startedState projId scId s).
Proof.
  intros Hoff Hcan. unfold canStart in Hcan. apply negb_true_iff in Hcan.
  unfold generateResults, newOperation, Operation_start, Operation_log, Operation_getId.
  rewrite Hoff. unfold_run. simpl. rewrite Hcan. simpl.
  reflexivity.
Qed.

(** Case analysis on a run of [runStages] from a state where the job key
    has its registry entry: one case per answer of the collaborators. *)
Ltac case_collaborator :=
  match goal with
  | |- context [match closeDatabaseResult ?env with _ => _ end] =>
      destruct (closeDatabaseResult env) eqn:?
  | |- context [match exportRoadNetworkSignal ?env with _ => _ end] =>
      destruct (exportRoadNetworkSignal env) as [|[?|]] eqn:?
  | |- context [match roadNetworkFile ?d ?sc with _ => _ end] =>
      destruct (roadNetworkFile d sc) eqn:?
  | |- context [match vectorTilesResult ?env with _ => _ end] =>
      destruct (vectorTilesResult env) eqn:?
  | |- context [match exitCode ?p with _ => _ end] =>
      destruct (exitCode p) eqn:?
  | |- context [if String.eqb ?a ?b then _ else _] =>
      destruct (String.eqb a b) eqn:?
  | |- context [match hyperSize ?c with _ => _ end] =>
      destruct (hyperSize c) eqn:?
  | |- context [if negb (Z.eqb ?c 0) then _ else _] =>
      destruct (Z.eqb c 0) eqn:?
  end.

Ltac run_stages He :=
  unfold runStages, closeDatabase, updateRN, generateTiles, spawnAnalysisProcess,
    pullImage, runProcess, serviceArgs, writeSlot;
  unfold_run; simpl;
  repeat first
    [ rewrite He; simpl
    | rewrite lookup_insert_eq; simpl
    | case_collaborator; simpl ].

Ltac new_events :=
  unfold newEvents; simpl; rewrite <- ?app_assoc, ?drop_app_length; simpl.

Lemma runStages_export_order env projId scId opId s :
  is_Some (runningProcesses s !! jobKey projId scId) →
  let stages := stagesStarted
    (newEvents s (finalState (runStages env projId scId opId true s))) in
  (∃ k, stages = take k allStages)
  ∧ (ExportRoadNetworkStage ∈ stages → closeDatabaseResult env = Fulfils)
  ∧ (VectorTilesStage ∈ stages → exportRoadNetworkSignal env = Complete None)
  ∧ (AnalysisStage ∈ stages → vectorTilesResult env = Fulfils)
  ∧ (closeDatabaseResult env = Fulfils →
     exportRoadNetworkSignal env = Complete None →
     is_Some (roadNetworkFile (db s) scId) →
     vectorTilesResult env = Fulfils →
     stages = allStages).
Proof.
  intros [e He].
  run_stages He; new_events;
    (split; [|split; [|split; [|split]]]);
    try (first [ exists 0%nat; reflexivity | exists 1%nat; reflexivity
            | exists 2%nat; reflexivity | exists 3%nat; reflexivity
            | exists 4%nat; reflexivity ]);
    try (intros Hin;
      first [ reflexivity | assumption
            | apply list_elem_of_In in Hin; simpl in Hin; intuition discriminate ]);
    try (intros ? ? [? ?] ?; first [ reflexivity | congruence ]).
Qed.

Lemma runStages_analysis_only env projId scId opId s :
  stagesStarted (newEvents s (finalState (runStages env projId scId opId false s)))
  = [AnalysisStage].
Proof.
  run_stages I; new_events; reflexivity.
Qed.

Lemma finishOnError_trace identifier e s :
  trace (finalState (finishOnError identifier e s)) = trace s.
Proof.
  unfold finishOnError, Operation_isCompleted, Operation_finish. unfold_run. simpl.
  destruct (isTerminal (op_status (thisOp s))); reflexivity.
Qed.

Lemma try_catch_finish_trace identifier (m : M unit) s :
  trace (finalState (try_catch m (finishOnError identifier) s)) = trace (finalState (m s)).
Proof.
  unfold try_catch. destruct (m s) as [a s'|e s'|s']; try reflexivity.
  apply finishOnError_trace.
Qed.

Lemma generateResults_newEvents env projId scId s :
  testMode env = false →
  canStart (db s) projId scId = true →
  newEvents s (finalState (generateResults env projId scId s)) =
  newEvents (startedState projId scId s)
    (finalState (runStages env projId scId (Some (nextId (operations (db s))))
                           (needExportOf env (db s) scId) (startedState projId scId s))).
Proof.
  intros Hoff Hcan. rewrite generateResults_started by assumption.
  unfold newEvents. now rewrite try_catch_finish_trace.
Qed.

(** ** The order of the stages *)

Ltac all_steps_or_dropped :=
  repeat (apply Forall_cons_2;
          [first [ left; eexists; reflexivity | right; eexists; reflexivity ]|]);
  apply Forall_nil_2.

Ltac initial_part :=
  first [ exists 0%nat; reflexivity | exists 1%nat; reflexivity
        | exists 2%nat; reflexivity | exists 3%nat; reflexivity
        | exists 4%nat; reflexivity | exists 5%nat; reflexivity ].

Ltac not_started Hin :=
  exfalso; apply list_elem_of_In in Hin; simpl in Hin; intuition discriminate.

Ltac backend_is_supported :=
  first [ left; apply String.eqb_eq; assumption
        | right; apply String.eqb_eq; assumption ].

Ltac backend_not_supported Hs :=
  exfalso; destruct Hs as [Hs | Hs]; apply String.eqb_eq in Hs; congruence.

Ltac after_success :=
  let Hin := fresh "Hin" in
  intros Hin; first [ reflexivity | assumption | not_started Hin ].

Ltac run_needs_backend :=
  let Hin := fresh "Hin" in
  intros Hin;
  first [ not_started Hin | split; [eexists; reflexivity | backend_is_supported] ].

Ltac whole_sequence :=
  let Hp := fresh "Hp" in
  let Hs := fresh "Hs" in
  intros Hp Hs;
  first [ reflexivity
        | destruct Hp as [? Hp]; discriminate Hp
        | backend_not_supported Hs ].

Lemma runStages_export_steps env projId scId opId s :
  is_Some (runningProcesses s !! jobKey projId scId) →
  let evs := newEvents s (finalState (runStages env projId scId opId true s)) in
  let steps := stepsStarted evs in
  Forall stepOrDroppedRejection evs
  ∧ (∃ k, steps = take k allSteps)
  ∧ (ExportRoadNetworkStep ∈ steps → closeDatabaseResult env = Fulfils)
  ∧ (VectorTilesStep ∈ steps → exportRoadNetworkSignal env = Complete None)
  ∧ (ImagePullStep ∈ steps → vectorTilesResult env = Fulfils)
  ∧ (ContainerRunStep ∈ steps → pullCloses env ∧ supportedService env)
  ∧ (closeDatabaseResult env = Fulfils →
     exportRoadNetworkSignal env = Complete None →
     is_Some (roadNetworkFile (db s) scId) →
     vectorTilesResult env = Fulfils →
     ImagePullStep ∈ steps
     ∧ (pullCloses env → supportedService env → steps = allSteps)).
Proof.
  intros [e He]. unfold pullCloses, supportedService.
  run_stages He; new_events;
    (split; [all_steps_or_dropped|]);
    (split; [initial_part|]);
    (split; [after_success|]);
    (split; [after_success|]);
    (split; [after_success|]);
    (split; [run_needs_backend|]);
    intros H1 H2 H3 H4;
    first [ discriminate H1 | discriminate H2 | discriminate H4
          | destruct H3 as [? H3]; discriminate H3
          | split; [apply list_elem_of_In; simpl; tauto | whole_sequence] ].
Qed.

Lemma runStages_analysis_steps env projId scId opId s :
  let evs := newEvents s (finalState (runStages env projId scId opId false s)) in
  let steps := stepsStarted evs in
  Forall stepOrDroppedRejection evs
  ∧ (steps = [ImagePullStep] ∨ steps = [ImagePullStep; ContainerRunStep])
  ∧ (ContainerRunStep ∈ steps → pullCloses env ∧ supportedService env)
  ∧ (pullCloses env → supportedService env →
     steps = [ImagePullStep; ContainerRunStep]).
Proof.
  unfold pullCloses, supportedService.
  run_stages I; new_events;
    (split; [all_steps_or_dropped|]);
    (split; [first [left; reflexivity | right; reflexivity]|]);
    (split; [run_needs_backend | whole_sequence]).
Qed.

(** C7. In a run of [generateResults] outside test mode that starts its
    operation, every event is the start of a step (or the rejection
    dropped for an unsupported backend).  When [needExport] is true the
    steps started are an initial part of close database, export road
    network, vector tiles, image pull, container run, in this order; each
    is started only when the one before it succeeded; the analysis stage
    is entered when the first three succeed, and the container is run when
    moreover the pull closes and the backend is supported.  When
    [needExport] is false only the analysis stage runs: the image pull,
    followed by the container run under the same two conditions. *)
Theorem stages_run_in_sequence env projId scId s :
  testMode env = false →
  canStart (db s) projId scId = true →
  let evs := newEvents s (finalState (generateResults env projId scId s)) in
  let steps := stepsStarted evs in
  Forall stepOrDroppedRejection evs
  ∧ (needExportOf env (db s) scId = true →
     (∃ k, steps = take k allSteps)
     ∧ (ExportRoadNetworkStep ∈ steps → closeDatabaseResult env = Fulfils)
     ∧ (VectorTilesStep ∈ steps → exportRoadNetworkSignal env = Complete None)
     ∧ (ImagePullStep ∈ steps → vectorTilesResult env = Fulfils)
     ∧ (ContainerRunStep ∈ steps → pullCloses env ∧ supportedService env)
     ∧ (closeDatabaseResult env = Fulfils →
        exportRoadNetworkSignal env = Complete None →
        is_Some (roadNetworkFile (db s) scId) →
        vectorTilesResult env = Fulfils →
        ImagePullStep ∈ steps
        ∧ (pullCloses env → supportedService env → steps = allSteps)))
  ∧ (needExportOf env (db s) scId = false →
     (steps = [ImagePullStep] ∨ steps = [ImagePullStep; ContainerRunStep])
     ∧ (ContainerRunStep ∈ steps → pullCloses env ∧ supportedService env)
     ∧ (pullCloses env → supportedService env →
        steps = [ImagePullStep; ContainerRunStep])).
Proof.
  intros Hoff Hcan evs steps. subst steps evs.
  rewrite generateResults_newEvents by assumption.
  destruct (needExportOf env (db s) scId).
  - destruct (runStages_export_steps env projId scId
                (Some (nextId (operations (db s)))) (startedState projId scId s)
                (ensureEntry_lookup _ _)) as [Hevents Horder].
    split; [exact Hevents|]. split; [intros _; exact Horder | discriminate].
  - destruct (runStages_analysis_steps env projId scId
                (Some (nextId (operations (db s)))) (startedState projId scId s))
      as [Hevents Honly].
    split; [exact Hevents|]. split; [discriminate | intros _; exact Honly].
Qed.

Lemma stages_run_in_sequence_witness :
  let env := Sample.env "docker" 0 [] in
  let stale := Sample.state (Sample.database (JNum 1000) (JStr "true") (JNum 2000) []) ∅ in
  let fresh := Sample.state (Sample.database (JNum 0) (JStr "false") (JNum 0) []) ∅ in
  stepsStarted (newEvents stale (finalState (generateResults env 3 7 stale))) = allSteps
  ∧ stepsStarted (newEvents fresh (finalState (generateResults env 3 7 fresh)))
    = [ImagePullStep; ContainerRunStep].
Proof.
  intros env stale fresh.
  assert (Hpull : pullCloses env) by (eexists; reflexivity).
  assert (Hsvc : supportedService env) by (left; reflexivity).
  split.
  - destruct (stages_run_in_sequence env 3 7 stale eq_refl eq_refl) as (_ & Hexport & _).
    destruct (Hexport eq_refl) as (_ & _ & _ & _ & _ & Hall).
    destruct (Hall eq_refl eq_refl (ex_intro _ _ eq_refl) eq_refl) as [_ Hfull].
    exact (Hfull Hpull Hsvc).
  - destruct (stages_run_in_sequence env 3 7 fresh eq_refl eq_refl) as (_ & _ & Honly).
    destruct (Honly eq_refl) as (_ & _ & Hrun).
    exact (Hrun Hpull Hsvc).
Defined.

(** ** Exit of the analysis container *)

Lemma runStages_container_exit env projId scId opId needExport s code :
  is_Some (runningProcesses s !! jobKey projId scId) →
  exitCode (analysisProc env) = Some code →
  containerSpawned
    (newEvents s (finalState (runStages env projId scId opId needExport s))) = true →
  ∃ s', runningProcesses s' !! jobKey projId scId = None
        ∧ db s' = db s
        ∧ thisOp s' = thisOp s
        ∧ runStages env projId scId opId needExport s =
            if Z.eqb code 0 then Fulfilled tt s'
            else Rejected (Error (capturedStderr (analysisProc env))) s'.
Proof.
  intros [e He] Hexit.
  destruct needExport; run_stages He; new_events; intros Hspawned;
    try discriminate Hspawned; try discriminate Hexit;
    injection Hexit as ->;
    match goal with H : Z.eqb code 0 = _ |- _ => rewrite H end;
    (eexists; split; [|split; [|split]]; [| | | reflexivity];
     [apply lookup_delete_eq | reflexivity | reflexivity]).
Qed.

Lemma generateResults_test_mode env projId scId s :
  testMode env = true → generateResults env projId scId s = Fulfilled tt s.
Proof. intros Hon. unfold generateResults. now rewrite Hon. Qed.

Lemma generateResults_refused env projId scId s :
  testMode env = false →
  canStart (db s) projId scId = false →
  trace (finalState (generateResults env projId scId s)) = trace s.
Proof.
  intros Hoff Hcan. unfold canStart in Hcan. apply negb_false_iff in Hcan.
  unfold generateResults, newOperation, Operation_start, finishOnError,
    Operation_isCompleted, Operation_finish.
  rewrite Hoff. unfold_run. simpl. rewrite Hcan. reflexivity.
Qed.

Lemma newEvents_none s s' : trace s' = trace s → newEvents s s' = [].
Proof. unfold newEvents. intros ->. apply drop_all. Qed.

Lemma startedState_operations projId scId s :
  operations (db (startedState projId scId s)) =
  map (appendLog (Some (nextId (operations (db s)))) startEntry) (operations (db s))
  ++ [startedRow (nextId (operations (db s))) projId scId Running [startEntry]].
Proof.
  simpl. rewrite List.map_app. f_equal. simpl.
  unfold appendLog. simpl. now rewrite bool_decide_true.
Qed.

Lemma finish_startedRow id projId scId entry :
  setStatus (Some id) Errored
    (appendLog (Some id) entry (startedRow id projId scId Running [startEntry])) =
  startedRow id projId scId Errored [startEntry; entry].
Proof.
  unfold appendLog. simpl. rewrite bool_decide_true by reflexivity.
  unfold setStatus. simpl. now rewrite bool_decide_true.
Qed.

Lemma errorPayload_captured p e :
  last (stderrChunks p) = Some e → e ≠ "" →
  errorPayload (Error (capturedStderr p)) = PText e.
Proof.
  intros Hlast Hne. unfold errorPayload, capturedStderr. rewrite Hlast. simpl.
  apply String.eqb_neq in Hne. now rewrite Hne.
Qed.

(** C4. In a run of [generateResults] that spawned the analysis container:
    when the container exits, the registry entry of the job key is gone;
    on a nonzero code the record of the operation has status error and its
    closing log entry carries the error, which is the captured stderr text
    whenever some was captured; on code zero the run ends without error and
    the record is left running. *)
Theorem container_exit_settles_operation env projId scId s code :
  let s' := finalState (generateResults env projId scId s) in
  let id := nextId (operations (db s)) in
  let payload := errorPayload (Error (capturedStderr (analysisProc env))) in
  exitCode (analysisProc env) = Some code →
  containerSpawned (newEvents s s') = true →
  runningProcesses s' !! jobKey projId scId = None
  ∧ generateResults env projId scId s = Fulfilled tt s'
  ∧ (code ≠ 0%Z →
     last (operations (db s')) =
       Some (startedRow id projId scId Errored [startEntry; ("error", DError payload)])
     ∧ ∀ e, last (stderrChunks (analysisProc env)) = Some e → e ≠ "" →
            payload = PText e)
  ∧ (code = 0%Z →
     last (operations (db s')) =
       Some (startedRow id projId scId Running [startEntry])).
Proof.
  intros s' id payload Hexit Hspawned. subst s'.
  destruct (testMode env) eqn:Hmode.
  { rewrite generateResults_test_mode, newEvents_none in Hspawned by auto.
    discriminate Hspawned. }
  destruct (canStart (db s) projId scId) eqn:Hcan.
  2:{ rewrite newEvents_none in Hspawned by now apply generateResults_refused.
      discriminate Hspawned. }
  rewrite generateResults_newEvents in Hspawned by assumption.
  destruct (runStages_container_exit env projId scId _ _
              (startedState projId scId s) code
              (ensureEntry_lookup _ _) Hexit Hspawned)
    as (s4 & Hreg & Hdb & Hop & Hrun).
  rewrite generateResults_started by assumption.
  unfold try_catch. rewrite Hrun.
  destruct (Z.eqb code 0) eqn:Hcode.
  - apply Z.eqb_eq in Hcode. simpl.
    split; [exact Hreg|]. split; [reflexivity|]. split.
    + intros Hne. contradiction.
    + intros _. rewrite Hdb, startedState_operations. apply last_snoc.
  - apply Z.eqb_neq in Hcode.
    unfold finishOnError, Operation_isCompleted, Operation_finish. unfold_run.
    simpl. rewrite Hop. simpl.
    split; [exact Hreg|]. split; [reflexivity|]. split.
    + intros _. split.
      * rewrite Hdb, startedState_operations, List.map_app. simpl.
        rewrite last_snoc, Hop. f_equal. apply finish_startedRow.
      * intros e. apply errorPayload_captured.
    + intros Heq. contradiction.
Qed.

Lemma container_exit_settles_operation_witness :
  let env := Sample.env "hyper" 3 ["boom"; "bang"] in
  let s := Sample.state (Sample.database (JNum 0) (JStr "false") (JNum 0) []) ∅ in
  let s' := finalState (generateResults env 3 7 s) in
  runningProcesses s' !! jobKey 3 7 = None
  ∧ generateResults env 3 7 s = Fulfilled tt s'
  ∧ last (operations (db s')) =
      Some (startedRow 1 3 7 Errored [startEntry; ("error", DError (PText "bang"))]).
Proof.
  intros env s s'.
  destruct (container_exit_settles_operation env 3 7 s 3 eq_refl eq_refl)
    as (Hreg & Hrun & Herr & _).
  split; [exact Hreg|]. split; [exact Hrun|].
  destruct Herr as [Hrow Htext]; [discriminate|].
  rewrite (Htext "bang" eq_refl) in Hrow by discriminate.
  exact Hrow.
Defined.

(** * Further properties of the handlers *)

(** ** Admission: the remaining checks *)

Ltac post_running_check Hfault Hnotrunning :=
  unfold postGenerate, getProject, newOperation, Operation_loadByData, Operation_isStarted;
  rewrite Hfault; unfold_run; simpl;
  match goal with
  | |- context [latestOperation ?rows ?n ?p ?sc] =>
      let r := fresh "r" in
      let Hlatest := fresh "Hlatest" in
      let Hst := fresh "Hst" in
      destruct (latestOperation rows n p sc) as [r|] eqn:Hlatest; simpl;
      try (specialize (Hnotrunning r eq_refl);
           destruct (or_status r) eqn:Hst; simpl; try congruence)
  end.

(** X1. A project whose setup is not completed is refused before anything is
    read or removed for the scenario. *)
Theorem post_rejects_inactive_project env projId scId s p :
  passesRunningCheck env projId scId s →
  find (λ p, Z.eqb (pr_id p) projId) (projects (db s)) = Some p →
  pr_status p ≠ "active" →
  ∃ s', postGenerate env projId scId s =
          Fulfilled (ReplyError (DataConflictError "Project setup not completed")) s'
        ∧ untouched s s'.
Proof.
  intros [Hfault Hnotrunning] Hproject Hstatus.
  apply String.eqb_neq in Hstatus.
  post_running_check Hfault Hnotrunning;
    rewrite Hproject; simpl; rewrite Hstatus; simpl;
    eexists; repeat split.
Qed.

Lemma post_rejects_inactive_project_witness :
  let env := Sample.env "docker" 0 [] in
  let d := Sample.database (JNum 0) (JStr "true") (JNum 5) [] in
  let s := Sample.state
    {| operations := []; projects := [{| pr_id := 3; pr_status := "pending" |}];
       scenarios := scenarios d; scenarios_settings := scenarios_settings d;
       scenarios_files := scenarios_files d; results := results d |} ∅ in
  ∃ s', postGenerate env 3 7 s =
          Fulfilled (ReplyError (DataConflictError "Project setup not completed")) s'
        ∧ untouched s s'.
Proof.
  intros env d s.
  apply (post_rejects_inactive_project env 3 7 s {| pr_id := 3; pr_status := "pending" |}).
  - split; [reflexivity|]. intros r Hr. discriminate Hr.
  - reflexivity.
  - discriminate.
Defined.

(** X2. A scenario that does not belong to the project is answered with the
    scenario-not-found error, and nothing is removed. *)
Theorem post_rejects_missing_scenario env projId scId s p :
  passesRunningCheck env projId scId s →
  find (λ p, Z.eqb (pr_id p) projId) (projects (db s)) = Some p →
  pr_status p = "active" →
  find (λ sc, Z.eqb (sc_id sc) scId && Z.eqb (sc_project_id sc) projId)
       (scenarios (db s)) = None →
  ∃ s', postGenerate env projId scId s =
          Fulfilled (ReplyError (mkError ScenarioNotFoundErrorC
                                         (scenarioNotFoundMessage env))) s'
        ∧ untouched s s'.
Proof.
  intros [Hfault Hnotrunning] Hproject Hstatus Hscenario.
  post_running_check Hfault Hnotrunning;
    rewrite Hproject; simpl; rewrite Hstatus; simpl; rewrite Hscenario; simpl;
    eexists; repeat split.
Qed.

Lemma post_rejects_missing_scenario_witness :
  let env := Sample.env "docker" 0 [] in
  let d := Sample.database (JNum 0) (JStr "true") (JNum 5) [] in
  let s := Sample.state
    {| operations := []; projects := projects d;
       scenarios := [{| sc_id := 7; sc_project_id := 4 |}];
       scenarios_settings := scenarios_settings d;
       scenarios_files := scenarios_files d; results := results d |} ∅ in
  ∃ s', postGenerate env 3 7 s =
          Fulfilled (ReplyError (mkError ScenarioNotFoundErrorC "Scenario not found")) s'
        ∧ untouched s s'.
Proof.
  intros env d s.
  apply (post_rejects_missing_scenario env 3 7 s {| pr_id := 3; pr_status := "active" |}).
  - split; [reflexivity|]. intros r Hr. discriminate Hr.
  - reflexivity.
  - reflexivity.
  - reflexivity.
Defined.

(** X3. The two handlers treat a failed load differently.  When the load fails
    with a message that does not contain "not exist", the [POST] handler
    answers with that very error and does nothing else, where the [DELETE]
    handler answers "Result generation not running". *)
Theorem post_rethrows_load_failure env projId scId s msg :
  loadFault env = Some msg →
  includes "not exist" msg = false →
  (∃ s', postGenerate env projId scId s = Fulfilled (ReplyError (Error msg)) s'
         ∧ untouched s s')
  ∧ (∃ s', deleteGenerate env projId scId s =
             Fulfilled (ReplyError (DataConflictError "Result generation not running")) s'
           ∧ untouched s s').
Proof.
  intros Hfault Hmsg. split.
  - unfold postGenerate, newOperation, Operation_loadByData.
    rewrite Hfault. unfold_run. simpl. rewrite Hmsg. simpl.
    eexists. repeat split.
  - unfold deleteGenerate, newOperation, Operation_loadByData, Operation_isStarted.
    rewrite Hfault. unfold_run. simpl. rewrite Hmsg. simpl.
    eexists. repeat split.
Qed.

Lemma post_rethrows_load_failure_witness :
  let base := Sample.env "docker" 0 [] in
  let env :=
    {| config := config base; DS_ENV := None; dateParse := dateParse base;
       loadFault := Some "connection refused";
       scenarioNotFoundMessage := scenarioNotFoundMessage base;
       projectNotFoundMessage := projectNotFoundMessage base;
       removeFileResult := removeFileResult base;
       closeDatabaseResult := Fulfils; exportRoadNetworkSignal := Complete None;
       vectorTilesResult := Fulfils; pullImageProc := pullImageProc base;
       analysisProc := analysisProc base |} in
  let s := Sample.state (Sample.database (JNum 0) (JStr "true") (JNum 5) [Sample.runningOp]) ∅ in
  (∃ s', postGenerate env 3 7 s =
           Fulfilled (ReplyError (Error "connection refused")) s'
         ∧ untouched s s')
  ∧ (∃ s', deleteGenerate env 3 7 s =
             Fulfilled (ReplyError (DataConflictError "Result generation not running")) s'
           ∧ untouched s s').
Proof.
  intros base env s.
  apply (post_rethrows_load_failure env 3 7 s "connection refused"); reflexivity.
Defined.

(** ** Admission: removing the stored results *)

Lemma fold_add_events (files : list FileRow) s :
  fold_left (λ (s : State) (f : FileRow), add_event (EvRemoveFile (fl_path f)) s) files s =
  {| db := db s; runningProcesses := runningProcesses s; thisOp := thisOp s;
     trace := trace s ++ map (λ f, EvRemoveFile (fl_path f)) files |}.
Proof.
  revert s. induction files as [|f files IH]; intros s; simpl.
  - rewrite app_nil_r. now destruct s.
  - rewrite IH. simpl. now rewrite <- app_assoc.
Qed.

Lemma NoDup_map_eq {A B} (f : A → B) (l : list A) x y :
  NoDup (map f l) → In x l → In y l → f x = f y → x = y.
Proof.
  induction l as [|a l IH]; simpl; [tauto|].
  intros Hnd Hx Hy Hxy. apply NoDup_cons in Hnd as [Hnotin Hnd].
  destruct Hx as [-> | Hx], Hy as [-> | Hy]; auto.
  - exfalso. apply Hnotin. rewrite Hxy. apply list_elem_of_In. now apply in_map.
  - exfalso. apply Hnotin. rewrite <- Hxy. apply list_elem_of_In. now apply in_map.
Qed.

(** With ids that identify the rows, deleting by the ids of the selected
    files removes those files and no other. *)
Lemma delete_by_ids d projId scId :
  NoDup (map fl_id (scenarios_files d)) →
  List.filter (λ f, negb (existsb (Z.eqb (fl_id f))
                                  (map fl_id (resultFiles d projId scId))))
              (scenarios_files d)
  = keptFiles d projId scId.
Proof.
  intros Hnd. unfold keptFiles, resultFiles. apply filter_ext_in.
  intros f Hf. f_equal.
  destruct (isResultFile projId scId f) eqn:Hres.
  - apply existsb_exists. exists (fl_id f). split; [|apply Z.eqb_refl].
    apply in_map. apply filter_In. auto.
  - apply not_true_is_false. intros Hex.
    apply existsb_exists in Hex as (i & Hi & Heq). apply Z.eqb_eq in Heq.
    apply in_map_iff in Hi as (g & <- & Hg). apply filter_In in Hg as [Hg Hgres].
    assert (f = g) by (eapply NoDup_map_eq; eauto). subst g. congruence.
Qed.

Lemma deleteResults_run env projId scId s :
  NoDup (map fl_id (scenarios_files (db s))) →
  deleteResults env projId scId s =
  await (promiseAll (removalResults env (db s) projId scId)) (clearedState projId scId s).
Proof.
  intros Hnd. unfold deleteResults. unfold_run. simpl.
  rewrite fold_add_events. simpl.
  unfold set_db, set_scenarios_files, set_results. simpl.
  fold (resultFiles (db s) projId scId).
  rewrite (delete_by_ids (db s) projId scId Hnd).
  reflexivity.
Qed.

Lemma promiseAll_fulfils rs : Forall (λ r, r = Fulfils) rs → promiseAll rs = Fulfils.
Proof.
  intros Hall. unfold promiseAll.
  induction Hall as [|r rs -> _ IH]; [reflexivity|]. simpl.
  destruct (find _ rs); [exact IH|].
  destruct (existsb _ rs); [discriminate IH | reflexivity].
Qed.

Lemma promiseAll_rejects rs e0 :
  In (RejectsWith e0) rs → ∃ e, promiseAll rs = RejectsWith e ∧ In (RejectsWith e) rs.
Proof.
  intros Hin. unfold promiseAll.
  destruct (find _ rs) as [r|] eqn:Hfind.
  - apply find_some in Hfind as [Hr Hrej]. destruct r; try discriminate. eauto.
  - exfalso. eapply find_none in Hfind; [|exact Hin]. discriminate Hfind.
Qed.

(** ** What a job leaves alone *)

Lemma runStages_frame env projId scId opId needExport s :
  is_Some (runningProcesses s !! jobKey projId scId) →
  let s' := finalState (runStages env projId scId opId needExport s) in
  db s' = db s ∧ thisOp s' = thisOp s ∧ ∃ evs, trace s' = trace s ++ evs.
Proof.
  intros [e He].
  destruct needExport; run_stages He;
    (split; [reflexivity|]; split; [reflexivity|];
     eexists; rewrite <- ?app_assoc;
     first [ reflexivity | symmetry; apply app_nil_r ]).
Qed.

Lemma sameTables_refl d : sameTables d d.
Proof. repeat split. Qed.

Lemma finishOnError_frame identifier e s :
  let s' := finalState (finishOnError identifier e s) in
  sameTables (db s) (db s')
  ∧ runningProcesses s' = runningProcesses s
  ∧ trace s' = trace s.
Proof.
  unfold finishOnError, Operation_isCompleted, Operation_finish. unfold_run. simpl.
  destruct (isTerminal (op_status (thisOp s))); simpl; repeat split.
Qed.

Lemma generateResults_sameTables env projId scId s :
  let s' := finalState (generateResults env projId scId s) in
  sameTables (db s) (db s') ∧ ∃ evs, trace s' = trace s ++ evs.
Proof.
  simpl.
  destruct (testMode env) eqn:Hmode.
  { rewrite generateResults_test_mode by exact Hmode. simpl.
    split; [apply sameTables_refl | exists []; symmetry; apply app_nil_r]. }
  destruct (canStart (db s) projId scId) eqn:Hcan.
  - rewrite generateResults_started by assumption.
    destruct (runStages_frame env projId scId (Some (nextId (operations (db s))))
                (needExportOf env (db s) scId) (startedState projId scId s)
                (ensureEntry_lookup _ _)) as (Hdb & _ & evs & Htrace).
    unfold try_catch.
    destruct (runStages _ _ _ _ _ _) as [a s4|e s4|s4]; simpl in *.
    + split; [rewrite Hdb; repeat split | eauto].
    + destruct (finishOnError_frame (jobKey projId scId) e s4)
        as ((H1 & H2 & H3 & H4 & H5) & _ & Htr).
      split.
      * unfold sameTables. rewrite H1, H2, H3, H4, H5, Hdb. repeat split.
      * exists evs. now rewrite Htr.
    + split; [rewrite Hdb; repeat split | eauto].
  - split.
    + apply negb_false_iff in Hcan.
      unfold generateResults, newOperation, Operation_start, finishOnError,
        Operation_isCompleted, Operation_finish.
      rewrite Hmode. unfold_run. simpl. unfold canStart in Hcan.
      rewrite Hcan. simpl. repeat split.
    + exists []. rewrite generateResults_refused by assumption.
      symmetry; apply app_nil_r.
Qed.

(** X6. A job writes to the operation log only: the other tables are as it
    found them, and the trace it found is a prefix of the one it leaves. *)
Theorem generateResults_frame env projId scId s :
  let s' := finalState (generateResults env projId scId s) in
  sameTables (db s) (db s') ∧ ∃ evs, trace s' = trace s ++ evs.
Proof. apply generateResults_sameTables. Qed.

Ltac post_pass_checks Hfault Hnotrunning Hproject Hactive Hscenario Hrow Hvalue :=
  post_running_check Hfault Hnotrunning;
  rewrite Hproject; simpl; rewrite Hactive; simpl; rewrite Hscenario; simpl;
  rewrite Hrow; simpl; rewrite Hvalue; simpl.

(** X4. An admitted request: the answer is "Result generation started"
    whatever becomes of the job; before the job is kicked off the result
    files of the scenario, and only those, are removed from the storage and
    from the files table, and the results of the scenario are deleted. *)
Theorem post_starts_job env projId scId s row :
  passesEarlierChecks env projId scId s →
  findAdminAreas (db s) scId = Some row →
  st_value row ≠ JStr "[]" →
  NoDup (map fl_id (scenarios_files (db s))) →
  Forall (λ r, r = Fulfils) (removalResults env (db s) projId scId) →
  ∃ s' jobEvents,
    postGenerate env projId scId s =
      Fulfilled (ReplyOk 200 "Result generation started") s'
    ∧ scenarios_files (db s') = keptFiles (db s) projId scId
    ∧ results (db s') = keptResults (db s) projId scId
    ∧ newEvents s s' =
        removalEvents (db s) projId scId ++ EvGenerateResults projId scId :: jobEvents.
Proof.
  intros (Hfault & Hnotrunning & (p & Hproject & Hactive) & (sc & Hscenario))
         Hrow Hvalue Hnd Hremoved.
  assert (Hneq : jsval_eqb (st_value row) (JStr "[]") = false).
  { apply not_true_is_false. intros Heq. now apply jsval_eqb_eq in Heq. }
  post_pass_checks Hfault Hnotrunning Hproject Hactive Hscenario Hrow Hneq;
    (rewrite deleteResults_run by exact Hnd; simpl;
     rewrite (promiseAll_fulfils _ Hremoved); simpl;
     match goal with
     | |- context [generateResults env projId scId ?s0] =>
         destruct (generateResults_sameTables env projId scId s0)
           as ((_ & _ & _ & Hfiles & Hresults) & evs & Htrace)
     end;
     eexists; exists evs; split; [reflexivity|];
     split; [exact Hfiles|]; split; [exact Hresults|];
     apply newEvents_app; rewrite Htrace; simpl;
     rewrite <- !app_assoc; reflexivity).
Qed.

(** X5. When the storage refuses to remove a result file, the request is
    answered with an error and no job is started (the operation log is as
    before); by then the file records and the results of the scenario are
    already deleted. *)
Theorem post_removal_failure env projId scId s row e0 :
  passesEarlierChecks env projId scId s →
  findAdminAreas (db s) scId = Some row →
  st_value row ≠ JStr "[]" →
  NoDup (map fl_id (scenarios_files (db s))) →
  In (RejectsWith e0) (removalResults env (db s) projId scId) →
  ∃ s' e,
    postGenerate env projId scId s = Fulfilled (ReplyError e) s'
    ∧ In (RejectsWith e) (removalResults env (db s) projId scId)
    ∧ operations (db s') = operations (db s)
    ∧ runningProcesses s' = runningProcesses s
    ∧ newEvents s s' = removalEvents (db s) projId scId
    ∧ scenarios_files (db s') = keptFiles (db s) projId scId
    ∧ results (db s') = keptResults (db s) projId scId.
Proof.
  intros (Hfault & Hnotrunning & (p & Hproject & Hactive) & (sc & Hscenario))
         Hrow Hvalue Hnd Hrejected.
  assert (Hneq : jsval_eqb (st_value row) (JStr "[]") = false).
  { apply not_true_is_false. intros Heq. now apply jsval_eqb_eq in Heq. }
  destruct (promiseAll_rejects _ _ Hrejected) as (e & Hall & Hin).
  post_pass_checks Hfault Hnotrunning Hproject Hactive Hscenario Hrow Hneq;
    (rewrite deleteResults_run by exact Hnd; simpl;
     rewrite Hall; simpl;
     eexists; exists e; repeat split; try assumption;
     apply newEvents_app; reflexivity).
Qed.

Lemma sample_passes_checks d0 :
  operations d0 = [] →
  projects d0 = projects Scenario.plain →
  scenarios d0 = scenarios Scenario.plain →
  passesEarlierChecks (Sample.env "docker" 0 []) 3 7 (Sample.state d0 ∅).
Proof.
  intros Hops Hprojects Hscenarios. unfold passesEarlierChecks. simpl.
  rewrite Hops, Hprojects, Hscenarios.
  split; [reflexivity|]. split; [intros r Hr; discriminate Hr|].
  split; eexists; [split|]; reflexivity.
Defined.

Lemma post_starts_job_witness :
  let env := Sample.env "docker" 0 [] in
  let s := Sample.state Scenario.plain ∅ in
  ∃ s' jobEvents,
    postGenerate env 3 7 s = Fulfilled (ReplyOk 200 "Result generation started") s'
    ∧ scenarios_files (db s') = keptFiles (db s) 3 7
    ∧ results (db s') = keptResults (db s) 3 7
    ∧ newEvents s s' = removalEvents (db s) 3 7 ++ EvGenerateResults 3 7 :: jobEvents.
Proof.
  intros env s.
  apply (post_starts_job env 3 7 s (Sample.setting "admin_areas" (JStr "[1,2]"))).
  - apply sample_passes_checks; reflexivity.
  - reflexivity.
  - discriminate.
  - apply (bool_decide_unpack _). exact I.
  - repeat constructor.
Defined.

Lemma post_removal_failure_witness :
  let env := Scenario.env "docker" None None (λ _, RejectsWith (Error "storage down"))
               Fulfils (Complete None) Fulfils (Sample.proc 0 []) (Sample.proc 0 []) in
  let s := Sample.state Scenario.plain ∅ in
  ∃ s' e,
    postGenerate env 3 7 s = Fulfilled (ReplyError e) s'
    ∧ In (RejectsWith e) (removalResults env (db s) 3 7)
    ∧ operations (db s') = operations (db s)
    ∧ runningProcesses s' = runningProcesses s
    ∧ newEvents s s' = removalEvents (db s) 3 7
    ∧ scenarios_files (db s') = keptFiles (db s) 3 7
    ∧ results (db s') = keptResults (db s) 3 7.
Proof.
  intros env s.
  apply (post_removal_failure env 3 7 s (Sample.setting "admin_areas" (JStr "[1,2]"))
           (Error "storage down")).
  - repeat split; try reflexivity.
    + intros r Hr. discriminate Hr.
    + eexists. split; reflexivity.
    + eexists. reflexivity.
  - reflexivity.
  - discriminate.
  - apply (bool_decide_unpack _). exact I.
  - left. reflexivity.
Defined.

(** ** Job keys and container names *)

Section Separator.

Variable ok : ascii → bool.
Variable sep : ascii.
Hypothesis ok_digit : ∀ x, ok (pretty_N_char x) = true.
Hypothesis ok_dash : ok "-"%char = true.
Hypothesis ok_sep : ok sep = false.

Lemma pretty_N_go_ok x s :
  allChars ok s = true → allChars ok (pretty_N_go x s) = true.
Proof.
  revert s. induction (N.lt_wf_0 x) as [x _ IH]. intros s Hs.
  destruct (decide (0 < x)%N) as [Hpos|Hzero].
  - rewrite pretty_N_go_step by exact Hpos.
    apply IH; [now apply N.div_lt|]. simpl.
    now rewrite ok_digit.
  - assert (x = 0%N) as -> by lia. now rewrite pretty_N_go_0.
Qed.

Lemma pretty_Z_ok (z : Z) : allChars ok (pretty z) = true.
Proof.
  assert (HN : ∀ n : N, allChars ok (pretty n) = true).
  { intros n. unfold pretty, pretty_N. case_decide.
    - simpl. now rewrite (ok_digit 0 : ok "0"%char = true).
    - now apply pretty_N_go_ok. }
  destruct z as [|p|p]; [apply (HN 0%N) | apply HN |].
  unfold pretty, pretty_Z. simpl. rewrite ok_dash. apply HN.
Qed.

Lemma split_at_separator a a' r r' :
  allChars ok a = true → allChars ok a' = true →
  a +:+ String sep r = a' +:+ String sep r' → a = a' ∧ r = r'.
Proof.
  revert a'. induction a as [|c a IH]; intros [|c' a']; simpl; intros Ha Ha' Heq.
  - injection Heq as ->. auto.
  - injection Heq as <- _. rewrite ok_sep in Ha'. discriminate Ha'.
  - injection Heq as -> _. rewrite ok_sep in Ha. discriminate Ha.
  - injection Heq as -> Heq.
    apply andb_true_iff in Ha as [_ Ha], Ha' as [_ Ha'].
    destruct (IH a' Ha Ha' Heq) as [-> ->]. auto.
Qed.

Lemma numbers_around_separator (p1 s1 p2 s2 : Z) :
  pretty p1 +:+ String sep (pretty s1) = pretty p2 +:+ String sep (pretty s2) →
  p1 = p2 ∧ s1 = s2.
Proof.
  intros Heq.
  apply split_at_separator in Heq as [Hp Hs]; try apply pretty_Z_ok.
  split; now apply (inj pretty).
Qed.

End Separator.

Lemma append_cancel_l a x y : a +:+ x = a +:+ y → x = y.
Proof. induction a as [|c a IH]; simpl; [auto|]. intros [= H]. auto. Qed.

Lemma jobKey_eq p1 s1 p2 s2 :
  jobKey p1 s1 = jobKey p2 s2 → p1 = p2 ∧ s1 = s2.
Proof.
  unfold jobKey. simpl. intros [= Heq].
  revert Heq.
  change (" s" +:+ pretty s1) with (String " " ("s" +:+ pretty s1)).
  change (" s" +:+ pretty s2) with (String " " ("s" +:+ pretty s2)).
  intros Heq.
  apply (split_at_separator notSpace " ") in Heq as [Hp [= Hs]];
    try (apply (pretty_Z_ok notSpace); [intros x; unfold pretty_N_char;
         repeat case_match; reflexivity | reflexivity]); [|reflexivity].
  split; now apply (inj pretty).
Qed.

(** X7. Distinct (project, scenario) pairs have distinct job keys, so two jobs
    never share a registry entry. *)
Theorem jobKey_inj p1 s1 p2 s2 :
  jobKey p1 s1 = jobKey p2 s2 ↔ p1 = p2 ∧ s1 = s2.
Proof.
  split.
  - apply jobKey_eq.
  - intros [-> ->]. reflexivity.
Qed.

(** X8. Within one instance, distinct (project, scenario) pairs have distinct
    container names. *)
Theorem containerName_inj cfg p1 s1 p2 s2 :
  containerName cfg p1 s1 = containerName cfg p2 s2 ↔ p1 = p2 ∧ s1 = s2.
Proof.
  split; [|intros [-> ->]; reflexivity].
  unfold containerName. intros Heq.
  apply append_cancel_l in Heq. simpl in Heq. injection Heq as Heq.
  apply (numbers_around_separator notLetterS "s") in Heq; try reflexivity; [exact Heq|].
  intros x. unfold pretty_N_char. repeat case_match; reflexivity.
Qed.

Lemma jobKey_inj_witness : jobKey 3 7 ≠ jobKey 3 8 ∧ jobKey 3 7 = jobKey 3 7.
Proof.
  split.
  - intros Heq. apply (proj1 (jobKey_inj 3 7 3 8)) in Heq as [_ Hsc]. discriminate Hsc.
  - apply (proj2 (jobKey_inj 3 7 3 7)). split; reflexivity.
Defined.

Lemma containerName_inj_witness :
  containerName (Sample.cfg "docker") 3 7 ≠ containerName (Sample.cfg "docker") 37 1.
Proof.
  intros Heq.
  apply (proj1 (containerName_inj (Sample.cfg "docker") 3 7 37 1)) in Heq as [Hp _].
  discriminate Hp.
Defined.

(** ** Cancellation: the other branches *)

Ltac kill_run Hoff :=
  rewrite testMode_off_kill by exact Hoff;
  unfold readSlot, writeSlot; unfold_run; simpl.

(** X9. With no handle in the updateRN slot and one in the genVT slot, the
    kill goes to the tile generation: its handle is killed, the slot is set
    to null, and no container removal is issued. *)
Theorem kill_stops_at_genVT env projId scId s e h :
  testMode env = false →
  runningProcesses s !! jobKey projId scId = Some e →
  emptySlot (updateRN_slot e) →
  genVT_slot e = SlotHandle h →
  ∃ s', killAnalysisProcess env projId scId s = Fulfilled tt s'
        ∧ trace s' = trace s ++ [EvKill h]
        ∧ runningProcesses s' =
            <[jobKey projId scId :=
                {| updateRN_slot := updateRN_slot e; genVT_slot := SlotNull |}]>
              (runningProcesses s)
        ∧ db s' = db s.
Proof.
  intros Hoff Hentry Hempty Hslot. kill_run Hoff.
  rewrite Hentry. simpl.
  destruct (updateRN_slot e) as [| |h'] eqn:Hu; simpl;
    [| |now destruct (Hempty h')];
    rewrite Hentry; simpl; rewrite Hslot; simpl; rewrite Hentry; simpl;
    rewrite Hu; eexists; repeat split.
Qed.

Lemma kill_stops_at_genVT_witness :
  let g := HVectorTiles 3 7 "scenario-7/rn.osm" in
  let e := {| updateRN_slot := SlotNull; genVT_slot := SlotHandle g |} in
  let s := Sample.state Scenario.stale {[ jobKey 3 7 := e ]} in
  ∃ s', killAnalysisProcess (Sample.env "docker" 0 []) 3 7 s = Fulfilled tt s'
        ∧ trace s' = trace s ++ [EvKill g]
        ∧ runningProcesses s' =
            <[jobKey 3 7 := {| updateRN_slot := updateRN_slot e; genVT_slot := SlotNull |}]>
              (runningProcesses s)
        ∧ db s' = db s.
Proof.
  intros g e s.
  apply (kill_stops_at_genVT (Sample.env "docker" 0 []) 3 7 s e g).
  - reflexivity.
  - apply lookup_singleton_eq.
  - intros h Hh. discriminate Hh.
  - reflexivity.
Defined.

(** X10. With no stage handle registered, the kill is a forced removal of the
    container of the job, by the name the container was given at spawn,
    with the credentials in the environment on hyper only.  The promise
    resolves without waiting for the removal, and the registry entry
    stays. *)
Theorem kill_removes_container env projId scId s e :
  let cfg := config env in
  testMode env = false →
  runningProcesses s !! jobKey projId scId = Some e →
  emptySlot (updateRN_slot e) →
  emptySlot (genVT_slot e) →
  (service (analysisProcess cfg) = "docker" →
   killAnalysisProcess env projId scId s =
     Fulfilled tt (add_event (EvExec (removeCommand cfg projId scId) []) s))
  ∧ (service (analysisProcess cfg) = "hyper" →
     killAnalysisProcess env projId scId s =
       Fulfilled tt (add_event (EvExec (removeCommand cfg projId scId)
                                       [("HYPER_ACCESS", hyperAccess (analysisProcess cfg));
                                        ("HYPER_SECRET", hyperSecret (analysisProcess cfg))]) s)).
Proof.
  intros cfg Hoff Hentry Hu Hg.
  split; intros Hsvc; kill_run Hoff; rewrite Hentry; simpl;
    (destruct (updateRN_slot e) as [| |h'] eqn:Hue; simpl; [| |now destruct (Hu h')]);
    rewrite Hentry; simpl;
    (destruct (genVT_slot e) as [| |h'] eqn:Hge; simpl; [| |now destruct (Hg h')]);
    unfold removeCommand; fold cfg; rewrite Hsvc; reflexivity.
Qed.

Lemma kill_removes_container_witness :
  let s := Sample.state Scenario.plain {[ jobKey 3 7 := emptyEntry ]} in
  killAnalysisProcess (Sample.env "docker" 0 []) 3 7 s =
    Fulfilled tt (add_event (EvExec "docker rm -f ram-analysisp3s7" []) s)
  ∧ killAnalysisProcess (Sample.env "hyper" 0 []) 3 7 s =
      Fulfilled tt (add_event (EvExec "hyper rm -f ram-analysisp3s7"
                                      [("HYPER_ACCESS", "AK"); ("HYPER_SECRET", "SK")]) s).
Proof.
  intros s.
  assert (Hempty : ∀ h, SlotUndefined ≠ SlotHandle h) by (intros h Hh; discriminate Hh).
  split.
  - exact (proj1 (kill_removes_container (Sample.env "docker" 0 []) 3 7 s emptyEntry
                    eq_refl (lookup_singleton_eq _ _) Hempty Hempty) eq_refl).
  - exact (proj2 (kill_removes_container (Sample.env "hyper" 0 []) 3 7 s emptyEntry
                    eq_refl (lookup_singleton_eq _ _) Hempty Hempty) eq_refl).
Defined.

(** X11. With no stage handle registered and a service name that is neither
    docker nor hyper, the kill rejects with the configuration error and
    does nothing; the abort request is answered with that error and the
    operation stays running. *)
Theorem kill_unsupported_service env projId scId s e :
  let cfg := config env in
  let error := Error (invalidServiceMessage (service (analysisProcess cfg))) in
  testMode env = false →
  runningProcesses s !! jobKey projId scId = Some e →
  emptySlot (updateRN_slot e) →
  emptySlot (genVT_slot e) →
  service (analysisProcess cfg) ≠ "docker" →
  service (analysisProcess cfg) ≠ "hyper" →
  killAnalysisProcess env projId scId s = Rejected error s
  ∧ (∀ r, loadFault env = None →
          latestOperation (operations (db s)) "generate-analysis" projId scId = Some r →
          or_status r = Running →
          ∃ s', deleteGenerate env projId scId s = Fulfilled (ReplyError error) s'
                ∧ untouched s s').
Proof.
  intros cfg error Hoff Hentry Hu Hg Hd Hh.
  apply String.eqb_neq in Hd, Hh.
  split; [|intros r Hfault Hlatest Hrun;
           unfold deleteGenerate, newOperation, Operation_loadByData, Operation_isStarted;
           rewrite Hfault];
    kill_run Hoff; rewrite ?Hlatest; simpl; rewrite ?Hrun; simpl;
    rewrite Hentry; simpl;
    (destruct (updateRN_slot e) as [| |h'] eqn:Hue; simpl; [| |now destruct (Hu h')]);
    rewrite Hentry; simpl;
    (destruct (genVT_slot e) as [| |h'] eqn:Hge; simpl; [| |now destruct (Hg h')]);
    fold cfg; rewrite Hd, Hh; simpl;
    first [ reflexivity | eexists; repeat split ].
Qed.

Lemma kill_unsupported_service_witness :
  let env := Sample.env "podman" 0 [] in
  let error := Error (invalidServiceMessage "podman") in
  let s := Sample.state (Sample.database (JNum 0) (JStr "false") (JNum 0) [Sample.runningOp])
             {[ jobKey 3 7 := emptyEntry ]} in
  killAnalysisProcess env 3 7 s = Rejected error s
  ∧ ∃ s', deleteGenerate env 3 7 s = Fulfilled (ReplyError error) s' ∧ untouched s s'.
Proof.
  intros env error s.
  assert (Hempty : ∀ h, SlotUndefined ≠ SlotHandle h) by (intros h Hh; discriminate Hh).
  destruct (kill_unsupported_service env 3 7 s emptyEntry eq_refl
              (lookup_singleton_eq _ _) Hempty Hempty) as [Hkill Habort];
    try discriminate.
  split; [exact Hkill|].
  exact (Habort Sample.runningOp eq_refl eq_refl eq_refl).
Defined.

(** ** What a kill leaves alone *)

Lemma killAnalysisProcess_frame env projId scId s :
  let s' := finalState (killAnalysisProcess env projId scId s) in
  db s' = db s
  ∧ thisOp s' = thisOp s
  ∧ (∀ p' sc', (p', sc') ≠ (projId, scId) →
               runningProcesses s' !! jobKey p' sc' = runningProcesses s !! jobKey p' sc')
  ∧ ∃ evs, trace s' = trace s ++ evs ∧ (length evs ≤ 1)%nat.
Proof.
  simpl.
  assert (Hother : ∀ p' sc' v (rp : gmap string Entry),
            (p', sc') ≠ (projId, scId) →
            <[jobKey projId scId := v]> rp !! jobKey p' sc' = rp !! jobKey p' sc').
  { intros p' sc' v rp Hne. apply lookup_insert_ne. intros Heq.
    apply jobKey_eq in Heq as [-> ->]. now apply Hne. }
  destruct (testMode env) eqn:Hmode.
  { unfold killAnalysisProcess. rewrite Hmode. simpl.
    repeat split. exists []. split; [symmetry; apply app_nil_r | simpl; lia]. }
  kill_run Hmode.
  destruct (runningProcesses s !! jobKey projId scId) as [e|] eqn:Hentry; simpl.
  2:{ repeat split. exists []. split; [symmetry; apply app_nil_r | simpl; lia]. }
  destruct (updateRN_slot e); simpl; rewrite ?Hentry; simpl;
    try (destruct (genVT_slot e); simpl; rewrite ?Hentry; simpl;
         try (destruct (String.eqb _ "hyper"); [|destruct (String.eqb _ "docker")]; simpl));
    (split; [reflexivity|]; split; [reflexivity|]; split;
     [ intros p' sc' Hne; first [ reflexivity | now apply Hother ]
     | first [ exists []; split; [symmetry; apply app_nil_r | simpl; lia]
             | eexists; split; [reflexivity | simpl; lia] ] ]).
Qed.

(** X12. A kill never writes to the store, touches the registry entry of no
    other job, and does at most one thing outside. *)
Theorem kill_frame env projId scId s :
  let s' := finalState (killAnalysisProcess env projId scId s) in
  db s' = db s
  ∧ thisOp s' = thisOp s
  ∧ (∀ p' sc', (p', sc') ≠ (projId, scId) →
               runningProcesses s' !! jobKey p' sc' = runningProcesses s !! jobKey p' sc')
  ∧ ∃ evs, trace s' = trace s ++ evs ∧ (length evs ≤ 1)%nat.
Proof. apply killAnalysisProcess_frame. Qed.

Lemma kill_frame_witness :
  let h := HService "export-road-network" 3 7 (Some 1) in
  let other := {| updateRN_slot := SlotNull; genVT_slot := SlotHandle (HVectorTiles 3 8 "rn.osm") |} in
  let s := Sample.state Scenario.stale
             (<[jobKey 3 8 := other]>
                {[ jobKey 3 7 := {| updateRN_slot := SlotHandle h; genVT_slot := SlotNull |} ]}) in
  let s' := finalState (killAnalysisProcess (Sample.env "docker" 0 []) 3 7 s) in
  db s' = db s
  ∧ runningProcesses s' !! jobKey 3 8 = runningProcesses s !! jobKey 3 8
  ∧ ∃ evs, trace s' = trace s ++ evs ∧ (length evs ≤ 1)%nat.
Proof.
  intros h other s s'.
  destruct (kill_frame (Sample.env "docker" 0 []) 3 7 s) as (Hdb & _ & Hother & Hevs).
  split; [exact Hdb|]. split; [|exact Hevs].
  apply (Hother 3 8). intros Heq. discriminate Heq.
Defined.

(** ** Abort *)

Lemma latestOperation_map (f : OperationRow → OperationRow) rows name projId scId :
  (∀ r, sameIdentity name projId scId (f r) = sameIdentity name projId scId r) →
  latestOperation (map f rows) name projId scId =
  option_map f (latestOperation rows name projId scId).
Proof.
  intros Hid. unfold latestOperation.
  induction rows as [|r rows IH] using rev_ind; [reflexivity|].
  rewrite List.map_app, !filter_app. simpl.
  destruct (sameIdentity name projId scId r) eqn:Hr.
  - rewrite !filter_cons_True, !filter_nil by (rewrite ?Hid; exact Hr).
    now rewrite !last_snoc.
  - rewrite !filter_cons_False, !filter_nil, !app_nil_r by (rewrite ?Hid, Hr; discriminate).
    exact IH.
Qed.

Lemma finish_keeps_identity id st entry name projId scId r :
  sameIdentity name projId scId (setStatus id st (appendLog id entry r))
  = sameIdentity name projId scId r.
Proof.
  unfold setStatus, appendLog. repeat (case_bool_decide; simpl); reflexivity.
Qed.

Lemma finish_loaded_record r :
  setStatus (Some (or_id r)) Errored
    (appendLog (Some (or_id r)) ("error", DError (PText "Operation aborted")) r)
  = abortedRow r.
Proof.
  unfold appendLog. rewrite bool_decide_true by reflexivity.
  unfold setStatus. simpl. now rewrite bool_decide_true.
Qed.

Lemma kill_of_killable env projId scId s :
  killable env projId scId s →
  ∃ s1, killAnalysisProcess env projId scId s = Fulfilled tt s1.
Proof.
  intros [Hmode | (e & Hentry & Hcase)].
  - rewrite killAnalysisProcess_test_mode by exact Hmode. eauto.
  - destruct (testMode env) eqn:Hmode.
    { rewrite killAnalysisProcess_test_mode by exact Hmode. eauto. }
    kill_run Hmode. rewrite Hentry. simpl.
    destruct (updateRN_slot e) as [| |hu] eqn:Hu; simpl; rewrite ?Hentry; simpl; eauto;
      (destruct (genVT_slot e) as [| |hg] eqn:Hg; simpl; rewrite ?Hentry; simpl; eauto);
      (destruct Hcase as [[h Hh] | [[h Hh] | [Hsvc | Hsvc]]]; try discriminate;
       rewrite Hsvc; simpl; eauto).
Qed.

Lemma abort_completes env projId scId s r :
  loadFault env = None →
  latestOperation (operations (db s)) "generate-analysis" projId scId = Some r →
  or_status r = Running →
  killable env projId scId s →
  ∃ s', deleteGenerate env projId scId s =
          Fulfilled (ReplyOk 200 "Result generation aborted") s'
        ∧ latestOperation (operations (db s')) "generate-analysis" projId scId
          = Some (abortedRow r).
Proof.
  intros Hfault Hlatest Hrun Hkill.
  unfold deleteGenerate, newOperation, Operation_loadByData, Operation_isStarted.
  rewrite Hfault. unfold_run. simpl. rewrite Hlatest. simpl. rewrite Hrun. simpl.
  match goal with
  | |- context [killAnalysisProcess env projId scId ?s0] =>
      destruct (kill_of_killable env projId scId s0 Hkill) as [s1 Hs1];
      pose proof (killAnalysisProcess_frame env projId scId s0) as (Hdb & Hop & _);
      rewrite Hs1 in *
  end.
  simpl in Hdb, Hop.
  unfold Operation_finish. unfold_run. simpl.
  eexists. split; [reflexivity|]. simpl.
  rewrite Hop, Hdb. simpl.
  rewrite latestOperation_map by (intros; apply finish_keeps_identity).
  rewrite Hlatest. simpl. f_equal. apply finish_loaded_record.
Qed.

(** X13. A successful abort: when the operation is running and the kill goes
    through, the request is answered "Result generation aborted", and the
    record that was loaded is now the latest of the identity with status
    error and the closing entry "Operation aborted". *)
Theorem abort_finishes_operation env projId scId s r :
  loadFault env = None →
  latestOperation (operations (db s)) "generate-analysis" projId scId = Some r →
  or_status r = Running →
  killable env projId scId s →
  ∃ s', deleteGenerate env projId scId s =
          Fulfilled (ReplyOk 200 "Result generation aborted") s'
        ∧ latestOperation (operations (db s')) "generate-analysis" projId scId
          = Some (abortedRow r).
Proof. apply abort_completes. Qed.

Lemma abort_finishes_operation_witness :
  let env := Sample.env "docker" 0 [] in
  let s := Sample.state (Sample.database (JNum 0) (JStr "false") (JNum 0) [Sample.runningOp])
             {[ jobKey 3 7 := emptyEntry ]} in
  ∃ s', deleteGenerate env 3 7 s = Fulfilled (ReplyOk 200 "Result generation aborted") s'
        ∧ latestOperation (operations (db s')) "generate-analysis" 3 7
          = Some (abortedRow Sample.runningOp).
Proof.
  intros env s.
  apply (abort_finishes_operation env 3 7 s Sample.runningOp); try reflexivity.
  right. exists emptyEntry. split; [apply lookup_singleton_eq|].
  right. right. left. reflexivity.
Defined.

Lemma delete_latest_not_running env projId scId s :
  loadFault env = None →
  (∀ r, latestOperation (operations (db s)) "generate-analysis" projId scId = Some r →
        or_status r ≠ Running) →
  ∃ s', deleteGenerate env projId scId s =
          Fulfilled (ReplyError (DataConflictError "Result generation not running")) s'
        ∧ untouched s s'.
Proof.
  intros Hfault Hnot.
  unfold deleteGenerate, newOperation, Operation_loadByData, Operation_isStarted.
  rewrite Hfault. unfold_run. simpl.
  destruct (latestOperation _ _ _ _) as [r|]; simpl.
  - specialize (Hnot r eq_refl).
    destruct (or_status r); simpl; try congruence; eexists; repeat split.
  - eexists; repeat split.
Qed.

(** X14. An abort is not repeatable: after a successful abort the operation is
    no longer running, so a second abort is answered "Result generation
    not running" and kills nothing, and a new [POST] request is no longer
    refused as already running. *)
Theorem abort_then_abort env projId scId s r :
  loadFault env = None →
  latestOperation (operations (db s)) "generate-analysis" projId scId = Some r →
  or_status r = Running →
  killable env projId scId s →
  ∃ s' s'',
    deleteGenerate env projId scId s =
      Fulfilled (ReplyOk 200 "Result generation aborted") s'
    ∧ deleteGenerate env projId scId s' =
        Fulfilled (ReplyError (DataConflictError "Result generation not running")) s''
    ∧ untouched s' s''
    ∧ passesRunningCheck env projId scId s'.
Proof.
  intros Hfault Hlatest Hrun Hkill.
  destruct (abort_completes env projId scId s r Hfault Hlatest Hrun Hkill)
    as (s' & Hfirst & Hlatest').
  assert (Hnot : ∀ r', latestOperation (operations (db s')) "generate-analysis"
                         projId scId = Some r' → or_status r' ≠ Running).
  { intros r' Hr'. rewrite Hlatest' in Hr'. injection Hr' as <-. discriminate. }
  destruct (delete_latest_not_running env projId scId s' Hfault Hnot) as (s'' & Hsecond & Hun).
  exists s', s''. repeat split; try assumption; apply Hun.
Qed.

Lemma abort_then_abort_witness :
  let env := Sample.env "docker" 0 [] in
  let s := Sample.state (Sample.database (JNum 0) (JStr "false") (JNum 0) [Sample.runningOp])
             {[ jobKey 3 7 := emptyEntry ]} in
  ∃ s' s'',
    deleteGenerate env 3 7 s = Fulfilled (ReplyOk 200 "Result generation aborted") s'
    ∧ deleteGenerate env 3 7 s' =
        Fulfilled (ReplyError (DataConflictError "Result generation not running")) s''
    ∧ untouched s' s''
    ∧ passesRunningCheck env 3 7 s'.
Proof.
  intros env s.
  apply (abort_then_abort env 3 7 s Sample.runningOp); try reflexivity.
  right. exists emptyEntry. split; [apply lookup_singleton_eq|].
  right. right. left. reflexivity.
Defined.

(** * Further properties of the orchestrator *)

Lemma generateResults_outcome env projId scId s :
  testMode env = false →
  canStart (db s) projId scId = true →
  generateResults env projId scId s =
  match runStages env projId scId (Some (nextId (operations (db s))))
                  (needExportOf env (db s) scId) (startedState projId scId s) with
  | Rejected e s4 => finishOnError (jobKey projId scId) e s4
  | o => o
  end.
Proof. intros Hoff Hcan. now rewrite generateResults_started. Qed.

Lemma finishOnError_started projId scId e s s4 :
  db s4 = db (startedState projId scId s) →
  thisOp s4 = thisOp (startedState projId scId s) →
  ∃ s', finishOnError (jobKey projId scId) e s4 = Fulfilled tt s'
        ∧ last (operations (db s')) =
            Some (failedRow (nextId (operations (db s))) projId scId e)
        ∧ runningProcesses s' = runningProcesses s4
        ∧ trace s' = trace s4.
Proof.
  intros Hdb Hop.
  unfold finishOnError, Operation_isCompleted, Operation_finish. unfold_run. simpl.
  rewrite Hop. simpl. eexists. split; [reflexivity|]. simpl.
  rewrite Hop, Hdb, startedState_operations, List.map_app. simpl.
  rewrite last_snoc. repeat split. f_equal. apply finish_startedRow.
Qed.

Lemma runStages_exportError env projId scId opId s e :
  is_Some (runningProcesses s !! jobKey projId scId) →
  exportError env (db s) scId = Some e →
  ∃ s4, runStages env projId scId opId true s = Rejected e s4
        ∧ db s4 = db s
        ∧ thisOp s4 = thisOp s
        ∧ containerSpawned (newEvents s s4) = false
        ∧ is_Some (runningProcesses s4 !! jobKey projId scId).
Proof.
  intros [e0 He] Herr. unfold exportError in Herr.
  run_stages He; simpl in Herr; try discriminate Herr; injection Herr as <-;
    (eexists; split; [reflexivity|]; split; [reflexivity|]; split; [reflexivity|];
     split; [new_events; reflexivity | simpl; rewrite ?lookup_insert_eq; eauto]).
Qed.

(** ** A stage fails *)

(** X15. When the export is needed and one of the stages before the analysis
    fails, the job ends there: the container is not spawned, the record of
    the operation is finished with status error and carries the error of
    the failing stage, and the registry entry of the job key is left in
    place. *)
Theorem export_failure_finishes_operation env projId scId s e :
  let s' := finalState (generateResults env projId scId s) in
  testMode env = false →
  canStart (db s) projId scId = true →
  needExportOf env (db s) scId = true →
  exportError env (db s) scId = Some e →
  generateResults env projId scId s = Fulfilled tt s'
  ∧ last (operations (db s')) =
      Some (failedRow (nextId (operations (db s))) projId scId e)
  ∧ containerSpawned (newEvents s s') = false
  ∧ is_Some (runningProcesses s' !! jobKey projId scId).
Proof.
  intros s' Hoff Hcan Hneed Herr. subst s'.
  rewrite generateResults_outcome by assumption. rewrite Hneed.
  destruct (runStages_exportError env projId scId (Some (nextId (operations (db s))))
              (startedState projId scId s) e (ensureEntry_lookup _ _) Herr)
    as (s4 & Hrun & Hdb & Hop & Hnot & Hentry).
  rewrite Hrun.
  destruct (finishOnError_started projId scId e s s4 Hdb Hop) as (s' & Hfin & Hrow & Hrp & Htr).
  rewrite Hfin. simpl. split; [reflexivity|]. split; [exact Hrow|].
  split; [|now rewrite Hrp].
  unfold newEvents in *. now rewrite Htr.
Qed.

Lemma export_failure_finishes_operation_witness :
  let env := Scenario.env "docker" None None (λ _, Fulfils) Fulfils
               (Complete (Some (Error "export failed"))) Fulfils
               (Sample.proc 0 []) (Sample.proc 0 []) in
  let s := Sample.state Scenario.stale ∅ in
  let s' := finalState (generateResults env 3 7 s) in
  generateResults env 3 7 s = Fulfilled tt s'
  ∧ last (operations (db s')) = Some (failedRow 1 3 7 (Error "export failed"))
  ∧ containerSpawned (newEvents s s') = false
  ∧ is_Some (runningProcesses s' !! jobKey 3 7).
Proof.
  intros env s s'.
  exact (export_failure_finishes_operation env 3 7 s (Error "export failed")
           eq_refl eq_refl eq_refl eq_refl).
Defined.

(** ** The registry during a run *)

Lemma emptySlot_undefined : emptySlot SlotUndefined.
Proof. intros h Hh. discriminate Hh. Qed.

Lemma emptySlot_null : emptySlot SlotNull.
Proof. intros h Hh. discriminate Hh. Qed.

Lemma runStages_one_handle env projId scId opId needExport s e0 :
  runningProcesses s !! jobKey projId scId = Some e0 →
  emptySlot (updateRN_slot e0) →
  emptySlot (genVT_slot e0) →
  ∀ e, runningProcesses (finalState (runStages env projId scId opId needExport s))
         !! jobKey projId scId = Some e →
       atMostOneHandle e.
Proof.
  intros He Hu Hg.
  destruct needExport; run_stages He; intros e' He';
    rewrite ?lookup_delete_eq, ?lookup_insert_eq, ?He in He';
    try discriminate He'; injection He' as <-;
    unfold atMostOneHandle; simpl;
    auto using emptySlot_undefined, emptySlot_null.
Qed.

Lemma startedState_no_handle projId scId s :
  noHandleRegistered projId scId s →
  ∃ e0, runningProcesses (startedState projId scId s) !! jobKey projId scId = Some e0
        ∧ emptySlot (updateRN_slot e0) ∧ emptySlot (genVT_slot e0).
Proof.
  intros Hno. simpl. unfold ensureEntry.
  destruct (runningProcesses s !! jobKey projId scId) as [e|] eqn:He.
  - exists e. rewrite He. split; [reflexivity|]. now apply Hno.
  - exists emptyEntry. rewrite lookup_insert_eq.
    split; [reflexivity|]. split; apply emptySlot_undefined.
Qed.

(** X16. Starting from a job key without registered handles, a run never has
    both slots of its entry occupied, wherever it is suspended or ends. *)
Theorem run_registers_one_handle env projId scId s e :
  let s' := finalState (generateResults env projId scId s) in
  noHandleRegistered projId scId s →
  runningProcesses s' !! jobKey projId scId = Some e →
  atMostOneHandle e.
Proof.
  intros s' Hno He. subst s'.
  destruct (testMode env) eqn:Hmode.
  { rewrite generateResults_test_mode in He by exact Hmode. simpl in He.
    left. now apply Hno. }
  destruct (canStart (db s) projId scId) eqn:Hcan.
  - rewrite generateResults_outcome in He by assumption.
    destruct (startedState_no_handle projId scId s Hno) as (e0 & He0 & Hu & Hg).
    pose proof (runStages_one_handle env projId scId (Some (nextId (operations (db s))))
                  (needExportOf env (db s) scId) _ e0 He0 Hu Hg e) as Hone.
    destruct (runStages _ _ _ _ _ _) as [a s4|err s4|s4]; simpl in *; auto.
    destruct (finishOnError_frame (jobKey projId scId) err s4) as (_ & Hrp & _).
    rewrite Hrp in He. auto.
  - apply negb_false_iff in Hcan.
    revert He.
    unfold generateResults, newOperation, Operation_start, finishOnError,
      Operation_isCompleted, Operation_finish.
    rewrite Hmode. unfold_run. simpl. unfold canStart in Hcan.
    rewrite Hcan. simpl. intros He. left. now apply Hno.
Qed.

Lemma run_registers_one_handle_witness :
  let env := Scenario.env "docker" None None (λ _, Fulfils) Fulfils
               (Complete None) NeverSettles (Sample.proc 0 []) (Sample.proc 0 []) in
  let s := Sample.state Scenario.stale ∅ in
  atMostOneHandle
    {| updateRN_slot := SlotNull;
       genVT_slot := SlotHandle (HVectorTiles 3 7 "scenario-7/rn.osm") |}.
Proof.
  intros env s.
  apply (run_registers_one_handle env 3 7 s).
  - intros e He. simpl in He. rewrite lookup_empty in He. discriminate He.
  - vm_compute. reflexivity.
Defined.

(** ** Cancelling a suspended job *)

Lemma killAnalysisProcess_entry env projId scId s e :
  testMode env = false →
  runningProcesses s !! jobKey projId scId = Some e →
  killAnalysisProcess env projId scId s = killOutcome env projId scId e s.
Proof.
  intros Hoff Hentry. kill_run Hoff. unfold killOutcome, removeCommand.
  rewrite Hentry. destruct e as [u g]. simpl.
  destruct u; simpl; rewrite ?Hentry; simpl; try reflexivity;
    (destruct g; simpl; rewrite ?Hentry; simpl;
     repeat case_match; reflexivity).
Qed.

Lemma generateResults_pending env projId scId s s1 :
  testMode env = false →
  canStart (db s) projId scId = true →
  runStages env projId scId (Some (nextId (operations (db s))))
            (needExportOf env (db s) scId) (startedState projId scId s) = Pending s1 →
  generateResults env projId scId s = Pending s1.
Proof. intros Hoff Hcan Hrun. rewrite generateResults_outcome by assumption. now rewrite Hrun. Qed.

Lemma runStages_in_export env projId scId opId s :
  is_Some (runningProcesses s !! jobKey projId scId) →
  closeDatabaseResult env = Fulfils →
  exportRoadNetworkSignal env = NoSignal →
  ∃ s1 e1, runStages env projId scId opId true s = Pending s1
           ∧ runningProcesses s1 !! jobKey projId scId = Some e1
           ∧ updateRN_slot e1 = SlotHandle (HService "export-road-network" projId scId opId)
           ∧ containerSpawned (newEvents s s1) = false.
Proof.
  intros [e0 He] Hclose Hsignal.
  run_stages He; try discriminate.
  eexists. eexists. split; [reflexivity|]. simpl. rewrite lookup_insert_eq.
  split; [reflexivity|]. split; [reflexivity|]. new_events. reflexivity.
Qed.

Lemma runStages_in_tiles env projId scId opId s f :
  is_Some (runningProcesses s !! jobKey projId scId) →
  closeDatabaseResult env = Fulfils →
  exportRoadNetworkSignal env = Complete None →
  roadNetworkFile (db s) scId = Some f →
  vectorTilesResult env = NeverSettles →
  ∃ s1 e1, runStages env projId scId opId true s = Pending s1
           ∧ runningProcesses s1 !! jobKey projId scId = Some e1
           ∧ updateRN_slot e1 = SlotNull
           ∧ genVT_slot e1 = SlotHandle (HVectorTiles projId scId (fl_path f))
           ∧ containerSpawned (newEvents s s1) = false.
Proof.
  intros [e0 He] Hclose Hsignal Hfile Hvt.
  run_stages He; try discriminate.
  injection Hfile as <-.
  eexists. eexists. split; [reflexivity|]. simpl. rewrite lookup_insert_eq.
  repeat split. new_events. reflexivity.
Qed.

Lemma runStages_in_analysis env projId scId opId needExport s e0 :
  runningProcesses s !! jobKey projId scId = Some e0 →
  emptySlot (updateRN_slot e0) →
  emptySlot (genVT_slot e0) →
  exitCode (analysisProc env) = None →
  containerSpawned
    (newEvents s (finalState (runStages env projId scId opId needExport s))) = true →
  ∃ s1 e1 rest penv,
    runStages env projId scId opId needExport s = Pending s1
    ∧ runningProcesses s1 !! jobKey projId scId = Some e1
    ∧ emptySlot (updateRN_slot e1)
    ∧ emptySlot (genVT_slot e1)
    ∧ In (EvSpawn (service (analysisProcess (config env)))
                  ("run" :: "--name" :: containerName (config env) projId scId :: rest) penv)
         (newEvents s s1)
    ∧ (service (analysisProcess (config env)) = "docker"
       ∨ service (analysisProcess (config env)) = "hyper").
Proof.
  intros He Hu Hg Hexit.
  destruct needExport; run_stages He; new_events; intros Hspawned;
    try discriminate Hspawned; try discriminate Hexit;
    (eexists; eexists; eexists; eexists; split; [reflexivity|];
     simpl; rewrite ?lookup_insert_eq, ?He;
     split; [reflexivity|]; simpl;
     split; [auto using emptySlot_null|];
     split; [auto using emptySlot_null|];
     split; [new_events; repeat (first [left; reflexivity | right])|];
     first [ left; apply String.eqb_eq; assumption
           | right; apply String.eqb_eq; assumption ]).
Qed.

(** X17. A job suspended in the export of the road network can be cancelled:
    the kill reaches the export service and nothing else, and the
    container was never spawned. *)
Theorem cancel_during_export env projId scId s :
  testMode env = false →
  canStart (db s) projId scId = true →
  needExportOf env (db s) scId = true →
  closeDatabaseResult env = Fulfils →
  exportRoadNetworkSignal env = NoSignal →
  ∃ s1 s2,
    generateResults env projId scId s = Pending s1
    ∧ containerSpawned (newEvents s s1) = false
    ∧ killAnalysisProcess env projId scId s1 = Fulfilled tt s2
    ∧ newEvents s1 s2 =
        [EvKill (HService "export-road-network" projId scId
                          (Some (nextId (operations (db s)))))].
Proof.
  intros Hoff Hcan Hneed Hclose Hsignal.
  destruct (runStages_in_export env projId scId (Some (nextId (operations (db s))))
              (startedState projId scId s) (ensureEntry_lookup _ _) Hclose Hsignal)
    as (s1 & e1 & Hrun & He1 & Hslot & Hnot).
  rewrite <- Hneed in Hrun.
  exists s1. eexists. split; [now apply generateResults_pending|].
  split; [exact Hnot|].
  rewrite (killAnalysisProcess_entry env projId scId s1 e1 Hoff He1).
  unfold killOutcome. rewrite Hslot.
  split; [reflexivity|]. apply newEvents_app. reflexivity.
Qed.

Lemma cancel_during_export_witness :
  let env := Scenario.env "docker" None None (λ _, Fulfils) Fulfils NoSignal Fulfils
               (Sample.proc 0 []) (Sample.proc 0 []) in
  let s := Sample.state Scenario.stale ∅ in
  ∃ s1 s2,
    generateResults env 3 7 s = Pending s1
    ∧ containerSpawned (newEvents s s1) = false
    ∧ killAnalysisProcess env 3 7 s1 = Fulfilled tt s2
    ∧ newEvents s1 s2 = [EvKill (HService "export-road-network" 3 7 (Some 1))].
Proof.
  intros env s.
  exact (cancel_during_export env 3 7 s eq_refl eq_refl eq_refl eq_refl eq_refl).
Defined.

(** X18. A job suspended in the tile generation can be cancelled: the export
    slot is empty by then, so the kill reaches the tile generation; the
    container was never spawned. *)
Theorem cancel_during_tiles env projId scId s f :
  testMode env = false →
  canStart (db s) projId scId = true →
  needExportOf env (db s) scId = true →
  closeDatabaseResult env = Fulfils →
  exportRoadNetworkSignal env = Complete None →
  roadNetworkFile (db s) scId = Some f →
  vectorTilesResult env = NeverSettles →
  ∃ s1 s2,
    generateResults env projId scId s = Pending s1
    ∧ containerSpawned (newEvents s s1) = false
    ∧ killAnalysisProcess env projId scId s1 = Fulfilled tt s2
    ∧ newEvents s1 s2 = [EvKill (HVectorTiles projId scId (fl_path f))].
Proof.
  intros Hoff Hcan Hneed Hclose Hsignal Hfile Hvt.
  destruct (runStages_in_tiles env projId scId (Some (nextId (operations (db s))))
              (startedState projId scId s) f (ensureEntry_lookup _ _)
              Hclose Hsignal Hfile Hvt)
    as (s1 & e1 & Hrun & He1 & Hu & Hg & Hnot).
  rewrite <- Hneed in Hrun.
  exists s1. eexists. split; [now apply generateResults_pending|].
  split; [exact Hnot|].
  rewrite (killAnalysisProcess_entry env projId scId s1 e1 Hoff He1).
  unfold killOutcome. rewrite Hu, Hg.
  split; [reflexivity|]. apply newEvents_app. reflexivity.
Qed.

Lemma cancel_during_tiles_witness :
  let env := Scenario.env "docker" None None (λ _, Fulfils) Fulfils (Complete None)
               NeverSettles (Sample.proc 0 []) (Sample.proc 0 []) in
  let s := Sample.state Scenario.stale ∅ in
  ∃ s1 s2,
    generateResults env 3 7 s = Pending s1
    ∧ containerSpawned (newEvents s s1) = false
    ∧ killAnalysisProcess env 3 7 s1 = Fulfilled tt s2
    ∧ newEvents s1 s2 = [EvKill (HVectorTiles 3 7 "scenario-7/rn.osm")].
Proof.
  intros env s.
  exact (cancel_during_tiles env 3 7 s _ eq_refl eq_refl eq_refl eq_refl eq_refl
           eq_refl eq_refl).
Defined.

(** X19. A job whose container is running can be cancelled, provided no handle
    was registered for the job key when it started: the kill is the forced
    removal of the container under the very name it was spawned with. *)
Theorem cancel_during_analysis env projId scId s :
  let cfg := config env in
  let s1 := finalState (generateResults env projId scId s) in
  noHandleRegistered projId scId s →
  exitCode (analysisProc env) = None →
  containerSpawned (newEvents s s1) = true →
  generateResults env projId scId s = Pending s1
  ∧ (∃ rest penv,
       In (EvSpawn (service (analysisProcess cfg))
                   ("run" :: "--name" :: containerName cfg projId scId :: rest) penv)
          (newEvents s s1))
  ∧ ∃ penv,
      killAnalysisProcess env projId scId s1 =
        Fulfilled tt
          (add_event (EvExec (service (analysisProcess cfg) +:+ " rm -f "
                              +:+ containerName cfg projId scId) penv) s1).
Proof.
  intros cfg s1 Hno Hexit Hspawned. subst s1.
  destruct (testMode env) eqn:Hmode.
  { rewrite generateResults_test_mode, newEvents_none in Hspawned by auto.
    discriminate Hspawned. }
  destruct (canStart (db s) projId scId) eqn:Hcan.
  2:{ rewrite newEvents_none in Hspawned by now apply generateResults_refused.
      discriminate Hspawned. }
  rewrite generateResults_newEvents in Hspawned by assumption.
  destruct (startedState_no_handle projId scId s Hno) as (e0 & He0 & Hu & Hg).
  destruct (runStages_in_analysis env projId scId _ _ _ e0 He0 Hu Hg Hexit Hspawned)
    as (s1 & e1 & rest & penv & Hrun & He1 & Hu1 & Hg1 & Hin & Hsvc).
  rewrite (generateResults_pending env projId scId s s1 Hmode Hcan Hrun). simpl.
  split; [reflexivity|]. split; [eauto|].
  rewrite (killAnalysisProcess_entry env projId scId s1 e1 Hmode He1).
  unfold killOutcome, removeCommand, containerName. fold cfg.
  destruct (updateRN_slot e1) as [| |h] eqn:Hue; [| |now destruct (Hu1 h)];
    (destruct (genVT_slot e1) as [| |h] eqn:Hge; [| |now destruct (Hg1 h)]);
    (destruct Hsvc as [Hsvc | Hsvc]; fold cfg in Hsvc; rewrite Hsvc; simpl; eauto).
Qed.

Lemma cancel_during_analysis_witness :
  let env := Scenario.env "docker" None None (λ _, Fulfils) Fulfils (Complete None)
               Fulfils (Sample.proc 0 []) Scenario.never in
  let s := Sample.state Scenario.plain ∅ in
  let s1 := finalState (generateResults env 3 7 s) in
  generateResults env 3 7 s = Pending s1
  ∧ (∃ rest penv,
       In (EvSpawn "docker" ("run" :: "--name" :: "ram-analysisp3s7" :: rest) penv)
          (newEvents s s1))
  ∧ ∃ penv,
      killAnalysisProcess env 3 7 s1 =
        Fulfilled tt (add_event (EvExec "docker rm -f ram-analysisp3s7" penv) s1).
Proof.
  intros env s s1.
  apply (cancel_during_analysis env 3 7 s).
  - intros e He. simpl in He. rewrite lookup_empty in He. discriminate He.
  - reflexivity.
  - reflexivity.
Defined.

(** ** A handle left behind *)

Lemma runStages_tiles_rejected env projId scId opId s f e :
  is_Some (runningProcesses s !! jobKey projId scId) →
  closeDatabaseResult env = Fulfils →
  exportRoadNetworkSignal env = Complete None →
  roadNetworkFile (db s) scId = Some f →
  vectorTilesResult env = RejectsWith e →
  ∃ s4, runStages env projId scId opId true s = Rejected e s4
        ∧ db s4 = db s ∧ thisOp s4 = thisOp s
        ∧ containerSpawned (newEvents s s4) = false
        ∧ runningProcesses s4 !! jobKey projId scId =
            Some {| updateRN_slot := SlotNull;
                    genVT_slot := SlotHandle (HVectorTiles projId scId (fl_path f)) |}.
Proof.
  intros [e0 He] Hclose Hsignal Hfile Hvt.
  run_stages He; try discriminate.
  injection Hfile as <-. injection Hvt as <-.
  eexists. split; [reflexivity|]. simpl. rewrite lookup_insert_eq.
  split; [reflexivity|]. split; [reflexivity|].
  split; [new_events; reflexivity | reflexivity].
Qed.

(** X20. When the tile generation fails, its handle is not cleared: the job is
    over, the record of its operation is finished with status error and
    carries the error of the tile generation, and the container is not
    spawned; yet the genVT slot of the job key still holds the handle, and
    a later kill for the job key calls [kill] on it. *)
Theorem tile_failure_leaves_handle env projId scId s f e :
  let h := HVectorTiles projId scId (fl_path f) in
  testMode env = false →
  canStart (db s) projId scId = true →
  needExportOf env (db s) scId = true →
  closeDatabaseResult env = Fulfils →
  exportRoadNetworkSignal env = Complete None →
  roadNetworkFile (db s) scId = Some f →
  vectorTilesResult env = RejectsWith e →
  ∃ s' s'',
    generateResults env projId scId s = Fulfilled tt s'
    ∧ last (operations (db s')) =
        Some (failedRow (nextId (operations (db s))) projId scId e)
    ∧ containerSpawned (newEvents s s') = false
    ∧ runningProcesses s' !! jobKey projId scId =
        Some {| updateRN_slot := SlotNull; genVT_slot := SlotHandle h |}
    ∧ killAnalysisProcess env projId scId s' = Fulfilled tt s''
    ∧ newEvents s' s'' = [EvKill h].
Proof.
  intros h Hoff Hcan Hneed Hclose Hsignal Hfile Hvt.
  destruct (runStages_tiles_rejected env projId scId (Some (nextId (operations (db s))))
              (startedState projId scId s) f e (ensureEntry_lookup _ _)
              Hclose Hsignal Hfile Hvt)
    as (s4 & Hrun & Hdb & Hop & Hnot & Hentry).
  destruct (finishOnError_started projId scId e s s4 Hdb Hop)
    as (s' & Hfin & Hrow & Hrp & Htr).
  rewrite <- Hrp in Hentry.
  exists s'. eexists.
  split; [rewrite generateResults_outcome, Hneed, Hrun by assumption; exact Hfin|].
  split; [exact Hrow|].
  split; [unfold newEvents in *; now rewrite Htr|].
  split; [exact Hentry|].
  rewrite (killAnalysisProcess_entry env projId scId s' _ Hoff Hentry).
  split; [reflexivity|]. apply newEvents_app. reflexivity.
Qed.

Lemma tile_failure_leaves_handle_witness :
  let env := Scenario.env "docker" None None (λ _, Fulfils) Fulfils (Complete None)
               (RejectsWith (Error "tippecanoe failed"))
               (Sample.proc 0 []) (Sample.proc 0 []) in
  let s := Sample.state Scenario.stale ∅ in
  let h := HVectorTiles 3 7 "scenario-7/rn.osm" in
  ∃ s' s'',
    generateResults env 3 7 s = Fulfilled tt s'
    ∧ last (operations (db s')) = Some (failedRow 1 3 7 (Error "tippecanoe failed"))
    ∧ containerSpawned (newEvents s s') = false
    ∧ runningProcesses s' !! jobKey 3 7 =
        Some {| updateRN_slot := SlotNull; genVT_slot := SlotHandle h |}
    ∧ killAnalysisProcess env 3 7 s' = Fulfilled tt s''
    ∧ newEvents s' s'' = [EvKill h].
Proof.
  intros env s h.
  exact (tile_failure_leaves_handle env 3 7 s _ (Error "tippecanoe failed")
           eq_refl eq_refl eq_refl eq_refl eq_refl eq_refl eq_refl).
Defined.

Lemma runStages_container_running env projId scId opId s e0 :
  runningProcesses s !! jobKey projId scId = Some e0 →
  (service (analysisProcess (config env)) = "docker"
   ∨ service (analysisProcess (config env)) = "hyper") →
  (∃ c, exitCode (pullImageProc env) = Some c) →
  exitCode (analysisProc env) = None →
  ∃ s1, runStages env projId scId opId false s = Pending s1
        ∧ runningProcesses s1 = runningProcesses s
        ∧ containerSpawned (newEvents s s1) = true.
Proof.
  intros He Hsvc [c Hpull] Hexit.
  run_stages He; try discriminate;
    try (destruct Hsvc as [Hsvc | Hsvc]; apply String.eqb_eq in Hsvc; congruence);
    (eexists; split; [reflexivity|]; split; [reflexivity|]; new_events; reflexivity).
Qed.

(** X21. A handle left in the genVT slot by an earlier run misleads the kill of
    a later one: with the container of the new job running, the kill calls
    [kill] on the old handle and the container is not removed. *)
Theorem stale_handle_diverts_kill env projId scId s e0 h :
  testMode env = false →
  canStart (db s) projId scId = true →
  needExportOf env (db s) scId = false →
  runningProcesses s !! jobKey projId scId = Some e0 →
  emptySlot (updateRN_slot e0) →
  genVT_slot e0 = SlotHandle h →
  (service (analysisProcess (config env)) = "docker"
   ∨ service (analysisProcess (config env)) = "hyper") →
  (∃ c, exitCode (pullImageProc env) = Some c) →
  exitCode (analysisProc env) = None →
  ∃ s1 s2,
    generateResults env projId scId s = Pending s1
    ∧ containerSpawned (newEvents s s1) = true
    ∧ killAnalysisProcess env projId scId s1 = Fulfilled tt s2
    ∧ newEvents s1 s2 = [EvKill h].
Proof.
  intros Hoff Hcan Hneed He0 Hu Hg Hsvc Hpull Hexit.
  assert (He0' : runningProcesses (startedState projId scId s) !! jobKey projId scId = Some e0).
  { simpl. unfold ensureEntry. now rewrite He0. }
  destruct (runStages_container_running env projId scId (Some (nextId (operations (db s))))
              (startedState projId scId s) e0 He0' Hsvc Hpull Hexit)
    as (s1 & Hrun & Hrp & Hspawned).
  rewrite <- Hneed in Hrun.
  exists s1. eexists.
  split; [now apply generateResults_pending|].
  split; [exact Hspawned|].
  rewrite <- Hrp in He0'.
  rewrite (killAnalysisProcess_entry env projId scId s1 e0 Hoff He0').
  unfold killOutcome. rewrite Hg.
  destruct (updateRN_slot e0) as [| |h'] eqn:Hue; [| |now destruct (Hu h')];
    (split; [reflexivity|]; apply newEvents_app; reflexivity).
Qed.

Lemma stale_handle_diverts_kill_witness :
  let env := Scenario.env "docker" None None (λ _, Fulfils) Fulfils (Complete None)
               Fulfils (Sample.proc 0 []) Scenario.never in
  let h := HVectorTiles 3 7 "scenario-7/rn.osm" in
  let s := Sample.state Scenario.plain
             {[ jobKey 3 7 := {| updateRN_slot := SlotNull; genVT_slot := SlotHandle h |} ]} in
  ∃ s1 s2,
    generateResults env 3 7 s = Pending s1
    ∧ containerSpawned (newEvents s s1) = true
    ∧ killAnalysisProcess env 3 7 s1 = Fulfilled tt s2
    ∧ newEvents s1 s2 = [EvKill h].
Proof.
  intros env h s.
  exact (stale_handle_diverts_kill env 3 7 s
           {| updateRN_slot := SlotNull; genVT_slot := SlotHandle h |} h
           eq_refl eq_refl eq_refl (lookup_singleton_eq _ _) emptySlot_null eq_refl
           (or_introl eq_refl) (ex_intro _ 0%Z eq_refl) eq_refl).
Defined.

(** ** The image pull *)

(** X22. How the image pull ended has no influence on the analysis stage: as
    long as the pull closes, the stage goes on and does the same whatever
    the exit code and the stderr of the pull. *)
Theorem pull_result_is_ignored env env' projId scId opId s c c' :
  config env' = config env →
  analysisProc env' = analysisProc env →
  exitCode (pullImageProc env) = Some c →
  exitCode (pullImageProc env') = Some c' →
  spawnAnalysisProcess env' projId scId opId s = spawnAnalysisProcess env projId scId opId s.
Proof.
  intros Hcfg Hproc Hc Hc'.
  unfold spawnAnalysisProcess, pullImage, runProcess.
  rewrite Hcfg, Hproc, Hc, Hc'. reflexivity.
Qed.

Lemma pull_result_is_ignored_witness :
  let ok := Scenario.env "docker" None None (λ _, Fulfils) Fulfils (Complete None)
              Fulfils (Sample.proc 0 []) (Sample.proc 0 []) in
  let failed := Scenario.env "docker" None None (λ _, Fulfils) Fulfils (Complete None)
                  Fulfils (Sample.proc 1 ["pull access denied"]) (Sample.proc 0 []) in
  let s := Sample.state Scenario.plain {[ jobKey 3 7 := emptyEntry ]} in
  spawnAnalysisProcess failed 3 7 (Some 1) s = spawnAnalysisProcess ok 3 7 (Some 1) s.
Proof.
  intros ok failed s.
  exact (pull_result_is_ignored ok failed 3 7 (Some 1) s 0 1 eq_refl eq_refl eq_refl eq_refl).
Defined.

(** ** Settings that are not there *)

Lemma length_insertByKey r l : length (insertByKey r l) = S (length l).
Proof.
  induction l as [|x l IH]; simpl; [reflexivity|].
  destruct (String.leb (st_key r) (st_key x)); simpl; auto.
Qed.

Lemma length_orderByKey l : length (orderByKey l) = length l.
Proof.
  induction l as [|x l IH]; simpl; [reflexivity|].
  now rewrite length_insertByKey, IH.
Qed.

Lemma decideNeedExport_undefined env genAt activeEditing :
  decideNeedExport env genAt activeEditing JUndefined = false.
Proof.
  unfold decideNeedExport. destruct (jsval_eqb activeEditing (JStr "true")); reflexivity.
Qed.

(** X23. The three settings are bound by position.  When the scenario lacks one
    of them the last variable is [undefined]: no export is needed,
    whatever the settings that are there say, and the run goes straight to
    the analysis. *)
Theorem missing_setting_skips_export env projId scId s :
  (length (List.filter (isExportSetting scId) (scenarios_settings (db s))) < 3)%nat →
  needExportOf env (db s) scId = false
  ∧ (testMode env = false →
     canStart (db s) projId scId = true →
     stagesStarted (newEvents s (finalState (generateResults env projId scId s)))
     = [AnalysisStage]).
Proof.
  intros Hlen.
  assert (Hneed : needExportOf env (db s) scId = false).
  { unfold needExportOf, readExportSettings.
    rewrite (nth_overflow _ JUndefined (n := 2)).
    - apply decideNeedExport_undefined.
    - rewrite length_map, length_orderByKey. lia. }
  split; [exact Hneed|]. intros Hoff Hcan.
  rewrite generateResults_newEvents, Hneed by assumption.
  apply runStages_analysis_only.
Qed.

Lemma missing_setting_skips_export_witness :
  let env := Sample.env "docker" 0 [] in
  let d := Scenario.stale in
  let s := Sample.state
    {| operations := []; projects := projects d; scenarios := scenarios d;
       scenarios_settings :=
         [Sample.setting "rn_updated_at" (JNum 2000);
          Sample.setting "rn_active_editing" (JStr "true")];
       scenarios_files := scenarios_files d; results := results d |} ∅ in
  needExportOf env (db s) 7 = false
  ∧ stagesStarted (newEvents s (finalState (generateResults env 3 7 s))) = [AnalysisStage].
Proof.
  intros env d s.
  destruct (missing_setting_skips_export env 3 7 s) as [Hneed Hstages].
  - simpl. lia.
  - split; [exact Hneed | exact (Hstages eq_refl eq_refl)].
Defined.

(** ** One job at a time *)

Lemma startedRow_identity id projId scId st log :
  sameIdentity "generate-analysis" projId scId (startedRow id projId scId st log) = true.
Proof. unfold sameIdentity. simpl. now rewrite !Z.eqb_refl. Qed.

Lemma post_latest_running env projId scId s r :
  loadFault env = None →
  latestOperation (operations (db s)) "generate-analysis" projId scId = Some r →
  or_status r = Running →
  ∃ s', postGenerate env projId scId s =
          Fulfilled (ReplyError (DataConflictError "Result generation already running")) s'
        ∧ untouched s s'.
Proof.
  intros Hfault Hlatest Hrun.
  unfold postGenerate, newOperation, Operation_loadByData, Operation_isStarted.
  rewrite Hfault. unfold_run. simpl. rewrite Hlatest. simpl. rewrite Hrun. simpl.
  eexists. repeat split.
Qed.

Lemma generateResults_refused_outcome env projId scId s :
  testMode env = false →
  canStart (db s) projId scId = false →
  ∃ s', generateResults env projId scId s = Fulfilled tt s'
        ∧ trace s' = trace s ∧ runningProcesses s' = runningProcesses s.
Proof.
  intros Hoff Hcan. unfold canStart in Hcan. apply negb_false_iff in Hcan.
  unfold generateResults, newOperation, Operation_start, finishOnError,
    Operation_isCompleted, Operation_finish.
  rewrite Hoff. unfold_run. simpl. rewrite Hcan. simpl.
  eexists. repeat split.
Qed.

Lemma generateResults_pending_inv env projId scId s s1 :
  generateResults env projId scId s = Pending s1 →
  operations (db s1) =
    map (appendLog (Some (nextId (operations (db s)))) startEntry) (operations (db s))
    ++ [startedRow (nextId (operations (db s))) projId scId Running [startEntry]].
Proof.
  intros Hpending.
  destruct (testMode env) eqn:Hmode.
  { rewrite generateResults_test_mode in Hpending by exact Hmode. discriminate. }
  destruct (canStart (db s) projId scId) eqn:Hcan.
  2:{ destruct (generateResults_refused_outcome env projId scId s Hmode Hcan) as (s' & Hs' & _).
      rewrite Hs' in Hpending. discriminate. }
  rewrite generateResults_outcome in Hpending by assumption.
  destruct (runStages_frame env projId scId (Some (nextId (operations (db s))))
              (needExportOf env (db s) scId) (startedState projId scId s)
              (ensureEntry_lookup _ _)) as (Hdb & Hop & _).
  destruct (runStages _ _ _ _ _ _) as [a s4|e s4|s4]; simpl in *; try discriminate.
  - destruct (finishOnError_started projId scId e s s4 Hdb Hop) as (s' & Hfin & _).
    rewrite Hfin in Hpending. discriminate.
  - injection Hpending as <-. rewrite Hdb. apply startedState_operations.
Qed.

(** X24. While a job is suspended in one of its stages, the identity is taken:
    a second call of [generateResults] starts no stage and no process, and
    a [POST] request is refused as already running, in every environment. *)
Theorem job_in_flight_blocks_another env projId scId s s1 :
  generateResults env projId scId s = Pending s1 →
  (∀ env', let s2 := finalState (generateResults env' projId scId s1) in
           trace s2 = trace s1 ∧ runningProcesses s2 = runningProcesses s1)
  ∧ (∀ env', loadFault env' = None →
             ∃ s2, postGenerate env' projId scId s1 =
                     Fulfilled (ReplyError
                       (DataConflictError "Result generation already running")) s2
                   ∧ untouched s1 s2).
Proof.
  intros Hpending.
  pose proof (generateResults_pending_inv env projId scId s s1 Hpending) as Hops.
  split.
  - intros env'. simpl.
    destruct (testMode env') eqn:Hmode.
    { rewrite generateResults_test_mode by exact Hmode. split; reflexivity. }
    assert (Hcan : canStart (db s1) projId scId = false).
    { unfold canStart. apply negb_false_iff. rewrite Hops, existsb_app. simpl.
      rewrite startedRow_identity. simpl. apply orb_true_r. }
    destruct (generateResults_refused_outcome env' projId scId s1 Hmode Hcan)
      as (s2 & Hs2 & Htrace & Hrp).
    rewrite Hs2. simpl. auto.
  - intros env' Hfault.
    apply (post_latest_running env' projId scId s1
             (startedRow (nextId (operations (db s))) projId scId Running [startEntry]));
      [exact Hfault| |reflexivity].
    unfold latestOperation. rewrite Hops, filter_app.
    rewrite filter_cons_True, filter_nil by apply startedRow_identity.
    apply last_snoc.
Qed.

Lemma job_in_flight_blocks_another_witness :
  let env := Scenario.env "docker" None None (λ _, Fulfils) Fulfils (Complete None)
               Fulfils (Sample.proc 0 []) Scenario.never in
  let s := Sample.state Scenario.plain ∅ in
  let s1 := finalState (generateResults env 3 7 s) in
  (let s2 := finalState (generateResults env 3 7 s1) in
   trace s2 = trace s1 ∧ runningProcesses s2 = runningProcesses s1)
  ∧ ∃ s2, postGenerate env 3 7 s1 =
            Fulfilled (ReplyError (DataConflictError "Result generation already running")) s2
          ∧ untouched s1 s2.
Proof.
  intros env s s1.
  destruct (job_in_flight_blocks_another env 3 7 s s1 eq_refl) as [Hjob Hpost].
  split; [exact (Hjob env) | exact (Hpost env eq_refl)].
Defined.

(** * The storage client *)

(** X25. Loading the storage module fails exactly for an engine other than
    minio and s3, with the error "Invalid storage engine. Use s3 or
    minio"; a client that is created carries the configured credentials,
    and on s3 its end point does not depend on the configured host and
    port. *)
Theorem minioClient_engines host port st :
  (minioClient host port st = inl (Error "Invalid storage engine. Use s3 or minio")
   ↔ engine st ≠ "minio" ∧ engine st ≠ "s3")
  ∧ (∀ c, minioClient host port st = inr c →
          co_accessKey c = accessKey st ∧ co_secretKey c = secretKey st)
  ∧ (engine st = "s3" →
     ∀ host' port', minioClient host' port' st = minioClient host port st).
Proof.
  unfold minioClient. split; [|split].
  - destruct (String.eqb_spec (engine st) "minio") as [Hm|Hm];
      [|destruct (String.eqb_spec (engine st) "s3") as [Hs|Hs]];
      split; try discriminate; try tauto; intros [H1 H2]; contradiction.
  - intros c.
    destruct (String.eqb (engine st) "minio"); [|destruct (String.eqb (engine st) "s3")];
      intros [= <-]; auto.
  - intros -> host' port'. reflexivity.
Qed.

Lemma minioClient_engines_witness :
  let st := {| engine := "s3"; accessKey := "AKIA"; secretKey := "secret";
               bucket := "ram"; region := "us-east-1" |} in
  (∀ c, minioClient "minio" "9000" st = inr c →
        co_accessKey c = "AKIA" ∧ co_secretKey c = "secret")
  ∧ ∀ host' port', minioClient host' port' st = minioClient "minio" "9000" st.
Proof.
  intros st.
  destruct (minioClient_engines "minio" "9000" st) as (_ & Hcred & Hs3).
  split; [exact Hcred | exact (Hs3 eq_refl)].
Defined.
